(** * The System Integrity Protection table of osquery

    A shallow embedding of [osquery/tables/system/darwin/sip_config.cpp]:
    the catalogue of rootless configuration flags, the reader of the
    persisted [csr-active-config] NVRAM property ([genCsrConfigFromNvram])
    and the table generator ([genSIPConfig]), followed by the properties
    the specification states about them.

    Conventions of the embedding:
    - [uint32_t] and [int] values are integers of [Z]; a value that is
      stored into a [uint32_t] goes through [to_uint32].
    - [Row] (a [std::map<std::string, std::string>]) is a [gmap string
      string]; [QueryData] (a [std::vector<Row>]) is a list of rows.
    - [kRootlessConfigFlags] is a [std::map] that the code iterates, so it
      is kept as the key-sorted association list a [std::map] iterates.
    - the calls into IOKit and CoreFoundation acquire and release
      references; the references that are outstanding are threaded through
      every call as a ledger, next to the two ways a C++ call can fail to
      return: a thrown exception and undefined behaviour. *)

From Stdlib Require Import ZArith Lia Ascii String DecimalString.
From stdpp Require Import base option list gmap strings fin_maps.

Local Open Scope string_scope.
Local Open Scope Z_scope.

(** ** Machine integers *)

Definition uint32_t : Type := Z.
Definition csr_config_t : Type := uint32_t.

Definition to_uint32 (z : Z) : uint32_t := z mod 2 ^ 32.

Definition INT_MIN : Z := - 2 ^ 31.
Definition INT_MAX : Z := 2 ^ 31 - 1.

(** ** Exceptions, undefined behaviour and the ledger of OS references *)

Inductive exception : Type :=
| invalid_argument (what : string)
| out_of_range (what : string).

Inductive CFType : Type :=
| CFData (bytes : list Byte.byte)
| CFString (s : string)
| CFNumber (n : Z)
| CFBoolean (b : bool).

Inductive CFTypeID : Type :=
| CFDataTypeID | CFStringTypeID | CFNumberTypeID | CFBooleanTypeID.

Definition CFGetTypeID (cf : CFType) : CFTypeID :=
  match cf with
  | CFData _ => CFDataTypeID
  | CFString _ => CFStringTypeID
  | CFNumber _ => CFNumberTypeID
  | CFBoolean _ => CFBooleanTypeID
  end.

Definition CFDataGetTypeID : CFTypeID := CFDataTypeID.

#[global] Instance byte_eq_dec : EqDecision Byte.byte := Byte.byte_eq_dec.
#[global] Instance CFType_eq_dec : EqDecision CFType.
Proof. solve_decision. Defined.
#[global] Instance CFTypeID_eq_dec : EqDecision CFTypeID.
Proof. solve_decision. Defined.

Definition mach_port_t : Type := Z.
Definition kern_return_t : Type := Z.
Definition MACH_PORT_NULL : mach_port_t := 0.
Definition KERN_SUCCESS : kern_return_t := 0.
Definition kIOMasterPortDefault : mach_port_t := 0.
Definition kNilOptions : Z := 0.

(** A reference the process holds: a registry entry (released with
    [IOObjectRelease]) or a created CoreFoundation dictionary (released
    with [CFRelease]). *)
Inductive os_ref : Type :=
| io_object (port : mach_port_t)
| cf_object (dict : gmap string CFType).

#[global] Instance os_ref_eq_dec : EqDecision os_ref.
Proof. solve_decision. Defined.

(** The references that are outstanding, most recent first. *)
Definition ledger : Type := list os_ref.

Fixpoint release (r : os_ref) (held : ledger) : ledger :=
  match held with
  | [] => []
  | r' :: held' => if decide (r = r') then held' else r' :: release r held'
  end.

Inductive outcome (A : Type) : Type :=
| Returns (a : A) (held : ledger)
| Throws (e : exception) (held : ledger)
| Undefined.
Arguments Returns {A} a held.
Arguments Throws {A} e held.
Arguments Undefined {A}.

Definition call (A : Type) : Type := ledger -> outcome A.

#[global] Instance call_ret : MRet call := fun A a held => Returns a held.
#[global] Instance call_bind : MBind call := fun A B f m held =>
  match m held with
  | Returns a held' => f a held'
  | Throws e held' => Throws e held'
  | Undefined => Undefined
  end.

Definition throw {A : Type} (e : exception) : call A := fun held => Throws e held.
Definition undefined_behaviour {A : Type} : call A := fun _ => Undefined.

(** ** The flag catalogue *)

(** [std::map::insert] on the key-sorted association list; a key that is
    present keeps its value, as for the initializer-list constructor. *)
Fixpoint std_map_insert {V : Type} (k : string) (v : V)
    (m : list (string * V)) : list (string * V) :=
  match m with
  | [] => [(k, v)]
  | (k', v') :: m' =>
      match String.compare k k' with
      | Lt => (k, v) :: m
      | Eq => m
      | Gt => (k', v') :: std_map_insert k v m'
      end
  end.

Definition std_map {V : Type} (init : list (string * V)) : list (string * V) :=
  fold_left (fun m kv => std_map_insert kv.1 kv.2 m) init [].

Definition kRootlessConfigFlags : list (string * uint32_t) :=
  std_map
    [ ("allow_untrusted_kexts", to_uint32 (Z.shiftl 1 0));
      ("allow_unrestricted_fs", to_uint32 (Z.shiftl 1 1));
      ("allow_task_for_pid", to_uint32 (Z.shiftl 1 2));
      ("allow_kernel_debugger", to_uint32 (Z.shiftl 1 3));
      ("allow_apple_internal", to_uint32 (Z.shiftl 1 4));
      ("allow_unrestricted_dtrace", to_uint32 (Z.shiftl 1 5));
      ("allow_unrestricted_nvram", to_uint32 (Z.shiftl 1 6));
      ("allow_device_configuration", to_uint32 (Z.shiftl 1 7)) ].

Definition kIODeviceTreeChosenPath_ : string := "IODeviceTree:/options".

(** ** Status, rows and the INTEGER macro *)

Record Status : Type := mkStatus { getCode : Z; getMessage : string }.

Definition ok (s : Status) : bool := getCode s =? 0.

(** Modelled from the spec: the [INTEGER] macro of [osquery/tables.h],
    which is not among the sources; the produced interface has integer
    fields that hold 0 or 1, carried in a row as their decimal text. *)
Definition INTEGER (x : Z) : string := NilZero.string_of_int (Z.to_int x).

(** ** IOKit and CoreFoundation *)

(** What the registry holds: the port a path opens ([MACH_PORT_NULL] when
    it cannot be opened), and for a port the result of fetching its
    properties: the kernel return code and the created dictionary, [None]
    for a null pointer. *)
Record IOKit : Type := {
  registry_entry : string -> mach_port_t;
  registry_properties : mach_port_t -> kern_return_t * option (gmap string CFType);
}.

Definition IORegistryEntryFromPath (io : IOKit) (masterPort : mach_port_t)
    (path : string) : call mach_port_t :=
  fun held =>
    let entry := registry_entry io path in
    Returns entry (if entry =? MACH_PORT_NULL then held else io_object entry :: held).

Definition IORegistryEntryCreateCFProperties (io : IOKit) (entry : mach_port_t)
    : call (kern_return_t * option (gmap string CFType)) :=
  fun held =>
    let '(kr, properties) := registry_properties io entry in
    Returns (kr, properties)
      match properties with
      | Some d => cf_object d :: held
      | None => held
      end.

Definition IOObjectRelease (entry : mach_port_t) : call unit :=
  fun held => Returns tt (release (io_object entry) held).

Definition CFRelease (d : gmap string CFType) : call unit :=
  fun held => Returns tt (release (cf_object d) held).

Definition CFDictionaryGetValueIfPresent (d : gmap string CFType)
    (key : string) : option CFType := d !! key.

(** [CFRange], with its [length] field as [length_]. *)
Record CFRange : Type := CFRangeMake { location : Z; length_ : Z }.

(** [(CFDataRef)cf]: the cast is only meaningful on a data object. *)
Definition CFDataGetLength (cf : CFType) : call Z :=
  match cf with
  | CFData bytes => mret (Z.of_nat (length bytes))
  | _ => undefined_behaviour
  end.

(** [CFDataGetBytes(theData, range, buffer)] writes [range.length] bytes
    of the data, from [range.location] on, to [buffer[0]], [buffer[1]],
    ...; the result is the buffer after the call. A range that is not
    within the data, or that is longer than the array behind [buffer],
    reads or writes out of bounds: undefined behaviour. *)
Definition CFDataGetBytes (cf : CFType) (range : CFRange)
    (buffer : list Byte.byte) : call (list Byte.byte) :=
  match cf with
  | CFData bytes =>
      let loc := location range in
      let len := length_ range in
      if (0 <=? loc) && (0 <=? len) && (loc + len <=? Z.of_nat (length bytes))
      then
        if len <=? Z.of_nat (length buffer)
        then
          let copied := take (Z.to_nat len) (drop (Z.to_nat loc) bytes) in
          mret (copied ++ drop (Z.to_nat len) buffer)%list
        else undefined_behaviour
      else undefined_behaviour
  | _ => undefined_behaviour
  end.

(** [memcpy(&config, buffer, sizeof(uint32_t))] on a little-endian host:
    the first four bytes of the buffer, least significant first. *)
Definition byte_at (buffer : list Byte.byte) (i : nat) : Z :=
  match buffer !! i with
  | Some b => Z.of_N (Byte.to_N b)
  | None => 0
  end.

Definition memcpy_uint32 (buffer : list Byte.byte) : call uint32_t :=
  if (4 <=? length buffer)%nat
  then
    mret (Z.lor (byte_at buffer 0)
         (Z.lor (Z.shiftl (byte_at buffer 1) 8)
         (Z.lor (Z.shiftl (byte_at buffer 2) 16)
                (Z.shiftl (byte_at buffer 3) 24))))
  else undefined_behaviour.

(** ** genCsrConfigFromNvram

    [config] is passed by reference: the call returns the status together
    with the value [config] holds afterwards. *)
Definition genCsrConfigFromNvram (io : IOKit) (config : uint32_t)
    : call (Status * uint32_t) :=
  chosen ← IORegistryEntryFromPath io kIOMasterPortDefault kIODeviceTreeChosenPath_;
  if chosen =? MACH_PORT_NULL then
    mret (mkStatus 1 "Could not open IOKit DeviceTree", config)
  else
    '(kr, properties) ← IORegistryEntryCreateCFProperties io chosen;
    _ ← IOObjectRelease chosen;
    if negb (kr =? KERN_SUCCESS) then
      mret (mkStatus 1 "Could not get IOKit options", config)
    else
      match properties with
      | None => mret (mkStatus 1 "Could not load IOKit properties", config)
      | Some properties =>
          match CFDictionaryGetValueIfPresent properties "csr-active-config" with
          | Some csr_config =>
              if decide (CFGetTypeID csr_config ≠ CFDataGetTypeID) then
                mret (mkStatus 1 "Unexpected data type for csr-active-config", config)
              else
                let buffer := replicate 4 Byte.x00 in
                len ← CFDataGetLength csr_config;
                buffer ← CFDataGetBytes csr_config (CFRangeMake 0 len) buffer;
                _ ← CFRelease properties;
                config ← memcpy_uint32 buffer;
                mret (mkStatus 0 "ok", config)
          | None =>
              (* the default case, csr-active-config is cleared or not set
                 is not an error *)
              mret (mkStatus 0 "csr-active-config key not found", config)
          end
      end.

(** ** The C++ library calls the gate uses *)

Abbreviation Row := (gmap string string).
Abbreviation QueryData := (list Row).

(** [std::map::at]: the value of a key, [std::out_of_range] without it. *)
Definition map_at (r : gmap string string) (key : string) : call string :=
  match r !! key with
  | Some v => mret v
  | None => throw (out_of_range "map::at")
  end.

(** [std::vector::front]; undefined on an empty vector. *)
Definition front {A : Type} (v : list A) : call A :=
  match v with
  | x :: _ => mret x
  | [] => undefined_behaviour
  end.

Definition isspace (c : ascii) : bool :=
  let n := Z.of_N (N_of_ascii c) in
  (n =? 32) || ((9 <=? n) && (n <=? 13)).

Definition digit_value (c : ascii) : option Z :=
  let n := Z.of_N (N_of_ascii c) in
  if (48 <=? n) && (n <=? 57) then Some (n - 48) else None.

Fixpoint skip_spaces (s : string) : string :=
  match s with
  | String c s' => if isspace c then skip_spaces s' else s
  | EmptyString => s
  end.

(** The longest prefix of decimal digits, as a number; [acc] is [None]
    until a digit has been read. *)
Fixpoint read_digits (s : string) (acc : option Z) : option Z :=
  match s with
  | String c s' =>
      match digit_value c with
      | Some d => read_digits s' (Some (10 * default 0 acc + d))
      | None => acc
      end
  | EmptyString => acc
  end.

(** [std::stoi(str)] (base 10): leading white space, an optional sign and
    the longest run of digits; [std::invalid_argument] when there is no
    digit, [std::out_of_range] when the number is not an [int]; what
    follows the digits is ignored. [stoi_value] is what the call computes,
    [stoi] the call: it returns the value or throws. *)
Definition stoi_value (str : string) : exception + Z :=
  let s := skip_spaces str in
  let '(negative, s) :=
    match s with
    | String "-"%char s' => (true, s')
    | String "+"%char s' => (false, s')
    | _ => (false, s)
    end in
  match read_digits s None with
  | None => inl (invalid_argument "stoi")
  | Some n =>
      let v := if negative then - n else n in
      if (INT_MIN <=? v) && (v <=? INT_MAX) then inr v
      else inl (out_of_range "stoi")
  end.

Definition stoi (str : string) : call Z :=
  match stoi_value str with
  | inr v => mret v
  | inl e => throw e
  end.

(** ** genSIPConfig *)

(** What the table reads from the machine it runs on: the rows of another
    table ([SQL::selectAllFrom]), whether the file was compiled with
    [DARWIN_10_9] defined, the two weakly linked entry points ([None] for a
    symbol that is null at run time) and the registry. [csr_check mask]
    returns an [int]; [csr_get_active_config] returns an [int] and the
    value it leaves in [*config]. *)
Record Host : Type := {
  selectAllFrom : string -> QueryData;
  DARWIN_10_9 : bool;
  csr_check : option (csr_config_t -> Z);
  csr_get_active_config : option (csr_config_t -> Z * Z);
  iokit : IOKit;
}.

(** The OR of the catalogue's bits (lines 120-123). *)
Definition valid_allowed_flags : csr_config_t :=
  fold_left (fun acc kv => Z.lor acc kv.2) kRootlessConfigFlags 0.

(** One pass of the loop of lines 141-149 over the row [r] it reuses and
    the results it appends to. *)
Definition flag_row (check : csr_config_t -> Z) (nvram_status : Status)
    (nvram_config : uint32_t) (acc : Row * QueryData) (kv : string * uint32_t)
    : Row * QueryData :=
  let '(r, results) := acc in
  let r := <["config_flag" := kv.1]> r in
  let r := <["enabled" := if check kv.2 =? 0 then INTEGER 1 else INTEGER 0]> r in
  let r :=
    if ok nvram_status then
      <["enabled_nvram" :=
          if negb (Z.land nvram_config kv.2 =? 0) then INTEGER 1 else INTEGER 0]> r
    else r in
  (r, (results ++ [r])%list).

(** The aggregate row of lines 125-136, from the active configuration. *)
Definition sip_row (config : csr_config_t) : Row :=
  let r : Row := ∅ in
  let r := <["config_flag" := "sip"]> r in
  if config =? 0 then
    (* SIP is enabled (default) *)
    <["enabled_nvram" := INTEGER 1]> (<["enabled" := INTEGER 1]> r)
  else if Z.lor config valid_allowed_flags =? valid_allowed_flags then
    (* mark SIP as NOT enabled (i.e. disabled) if any of the
       valid_allowed_flags is set *)
    <["enabled_nvram" := INTEGER 0]> (<["enabled" := INTEGER 0]> r)
  else r.

(** Lines 109-152: what the call returns once the version gate has let
    it through. *)
Definition sip_config_rows (host : Host) : call QueryData :=
  let results : QueryData := [] in
  if DARWIN_10_9 host then
    mret results
  else
    (* check if weakly linked symbols exist *)
    match csr_get_active_config host, csr_check host with
    | Some get_active_config, Some check =>
        let config : csr_config_t := 0 in
        let config := to_uint32 (get_active_config config).2 in
        let r := sip_row config in
        let results := (results ++ [r])%list in
        let nvram_config : uint32_t := 0 in
        '(nvram_status, nvram_config) ← genCsrConfigFromNvram (iokit host) nvram_config;
        mret (fold_left (flag_row check nvram_status nvram_config)
                kRootlessConfigFlags (r, results)).2
    | _, _ => mret []
    end.

Definition genSIPConfig (host : Host) : call QueryData :=
  let os_version := selectAllFrom host "os_version" in
  if negb (length os_version =? 1)%nat then
    mret []
  else
    (* bail out if running on OS X < 10.11 *)
    record ← front os_version;
    major ← map_at record "major";
    too_old ←
      (if String.eqb major "10" then
         minor ← map_at record "minor";
         n ← stoi minor;
         mret (n <? 11)
       else mret false);
    if too_old : bool then
      mret []
    else
      sip_config_rows host.

(** ** Building sample machines

    A machine with one OS-version record, both entry points bound, the
    active configuration [active], and a [csr_check] that allows exactly
    the bits of [active]; a registry that answers every path and port the
    same way; and an options dictionary with a [csr-active-config]. *)

Definition version_row (major minor : string) : Row :=
  <["major" := major]> (<["minor" := minor]> ∅).

Definition registry (port : mach_port_t) (kr : kern_return_t)
    (properties : option (gmap string CFType)) : IOKit :=
  {| registry_entry := fun _ => port;
     registry_properties := fun _ => (kr, properties) |}.

Definition machine (major minor : string) (active : Z) (io : IOKit) : Host :=
  {| selectAllFrom := fun _ => [version_row major minor];
     DARWIN_10_9 := false;
     csr_check := Some (fun mask => if Z.land active mask =? 0 then 1 else 0);
     csr_get_active_config := Some (fun _ => (0, active));
     iokit := io |}.

Definition nvram (bytes : list Byte.byte) : gmap string CFType :=
  <["csr-active-config" := CFData bytes]> (<["boot-args" := CFString "-v"]> ∅).

(** * Vocabulary of the properties

    The conditions the specification's sentences speak of, stated over the
    registry and the machine, and the sample machines the properties are
    instantiated on. *)

(** ** The registry, as the reader meets it *)

(** The port of the options node, and what fetching its properties
    gives. *)
Definition chosen_entry (io : IOKit) : mach_port_t :=
  registry_entry io kIODeviceTreeChosenPath_.

Definition fetched_properties (io : IOKit)
    : kern_return_t * option (gmap string CFType) :=
  registry_properties io (chosen_entry io).

(** The first four bytes of a buffer as a number, least significant byte
    first, a missing byte counting as zero. *)
Definition little_endian_uint32 (bytes : list Byte.byte) : uint32_t :=
  byte_at bytes 0 + 2 ^ 8 * byte_at bytes 1 + 2 ^ 16 * byte_at bytes 2
  + 2 ^ 24 * byte_at bytes 3.

(** The reader returns, with a failing or with a success status. *)
Definition reader_fails (io : IOKit) (config : uint32_t) (held : ledger) : Prop :=
  ∃ status config' held',
    genCsrConfigFromNvram io config held = Returns (status, config') held'
    ∧ ok status = false.

Definition reader_succeeds (io : IOKit) (config : uint32_t) (held : ledger) : Prop :=
  ∃ status config' held',
    genCsrConfigFromNvram io config held = Returns (status, config') held'
    ∧ ok status = true.

(** The four conditions of a failure, and the two readings of "the
    fetched dictionary is null/empty". *)
Definition node_unavailable (io : IOKit) : Prop :=
  chosen_entry io = MACH_PORT_NULL.

Definition properties_unavailable (io : IOKit) : Prop :=
  (fetched_properties io).1 ≠ KERN_SUCCESS.

Definition properties_null (io : IOKit) : Prop :=
  (fetched_properties io).2 = None.

Definition properties_empty (io : IOKit) : Prop :=
  (fetched_properties io).2 = Some ∅.

Definition csr_property (io : IOKit) : option CFType :=
  (fetched_properties io).2 ≫= λ d, d !! "csr-active-config".

Definition unexpected_type (io : IOKit) : Prop :=
  ∃ value, csr_property io = Some value ∧ CFGetTypeID value ≠ CFDataGetTypeID.

(** The node and its dictionary are readable and the dictionary has no
    [csr-active-config]. *)
Definition property_absent (io : IOKit) : Prop :=
  chosen_entry io ≠ MACH_PORT_NULL
  ∧ ∃ d, fetched_properties io = (KERN_SUCCESS, Some d)
         ∧ d !! "csr-active-config" = None.

(** The reader's failures as the specification lists them, a dictionary
    with no entries counted with the null one. *)
Definition raises_iff_null_or_empty : Prop :=
  ∀ io config held,
    (reader_fails io config held ↔
       node_unavailable io ∨ properties_unavailable io
       ∨ (properties_null io ∨ properties_empty io) ∨ unexpected_type io)
    ∧ (¬ (node_unavailable io ∨ properties_unavailable io
          ∨ (properties_null io ∨ properties_empty io) ∨ unexpected_type io) →
       reader_succeeds io config held).

(** A property value one byte longer than the array it is copied to, and
    a dictionary without the property. *)
Definition five_bytes : list Byte.byte :=
  [Byte.x10; Byte.x00; Byte.x00; Byte.x00; Byte.x01].

Definition boot_args_only : gmap string CFType :=
  <["boot-args" := CFString "-v"]> ∅.

(** ** The version gate and the rows *)

(** The record of an OS X 10.x below 10.11, and a record the gate lets
    through: any major version but "10", or "10" with a minor version of at
    least 11. *)
Definition too_old (record : Row) : Prop :=
  record !! "major" = Some "10"
  ∧ ∃ minor n, record !! "minor" = Some minor ∧ stoi_value minor = inr n ∧ n < 11.

Definition supported (record : Row) : Prop :=
  ∃ major, record !! "major" = Some major
    ∧ (major ≠ "10"
       ∨ ∃ minor n, record !! "minor" = Some minor ∧ stoi_value minor = inr n ∧ 11 ≤ n).

(** There is exactly one OS-version record and the gate lets it through. *)
Definition gate_passes (host : Host) : Prop :=
  ∃ record, selectAllFrom host "os_version" = [record] ∧ supported record.

(** The active configuration, as lines 117-118 obtain it. *)
Definition active_config (get_active_config : csr_config_t → Z * Z) : csr_config_t :=
  to_uint32 (get_active_config 0).2.

(** What one pass of the loop leaves in the row it appends; [carried] is
    the [enabled_nvram] field of the row the loop started from. *)
Definition flag_observation (check : csr_config_t → Z) (nvram_status : Status)
    (nvram_config : uint32_t) (carried : option string)
    (kv : string * uint32_t) (row : Row) : Prop :=
  row !! "config_flag" = Some kv.1
  ∧ row !! "enabled" = Some (if check kv.2 =? 0 then "1" else "0")
  ∧ row !! "enabled_nvram"
    = if ok nvram_status
      then Some (if Z.land nvram_config kv.2 =? 0 then "0" else "1")
      else carried.

(** The union of the valid bits as the specification defines it, the OR
    of the bits of all catalogue entries, and its reading bit by bit: [i]
    is the position of a bit that some catalogue entry has. Neither goes
    through [valid_allowed_flags], the value the code accumulates. *)
Definition validUnion : Z :=
  foldr Z.lor 0 kRootlessConfigFlags.*2.

Definition catalogue_bit (i : Z) : Prop :=
  ∃ kv : string * uint32_t, kv ∈ kRootlessConfigFlags ∧ Z.testbit kv.2 i = true.

(** How many observations a call returned. *)
Definition observations (o : outcome QueryData) : option nat :=
  match o with
  | Returns rows _ => Some (length rows)
  | _ => None
  end.

(** The gate as the specification has it: a single record that is not
    "major 10, minor at least 11" yields no observation. *)
Definition gate_admits_only_10_11 : Prop :=
  ∀ host held record,
    selectAllFrom host "os_version" = [record] →
    ¬ (record !! "major" = Some "10"
       ∧ ∃ minor n, record !! "minor" = Some minor ∧ stoi_value minor = inr n ∧ 11 ≤ n) →
    genSIPConfig host held = Returns [] held.

(** The absent property as the specification has it: no per-flag
    observation has an [enabled_nvram] field. *)
Definition absent_property_omits_nvram : Prop :=
  ∀ host held rows held',
    gate_passes host →
    DARWIN_10_9 host = false →
    is_Some (csr_get_active_config host) →
    is_Some (csr_check host) →
    property_absent (iokit host) →
    genSIPConfig host held = Returns rows held' →
    Forall (λ row : Row, row !! "enabled_nvram" = None) (tail rows).

(** ** Sample machines for the properties *)

(** OS X 10.11 with SIP enabled and a registry whose options node has
    properties but no [csr-active-config]. *)
Definition el_capitan : Host :=
  machine "10" "11" 0 (registry 7 KERN_SUCCESS (Some boot_args_only)).

(** The same machine when the options node cannot be opened. *)
Definition el_capitan_no_node : Host :=
  machine "10" "11" 0 (registry MACH_PORT_NULL KERN_SUCCESS None).

(** OS X 10.10, which predates SIP. *)
Definition yosemite : Host :=
  machine "10" "10" 0 (registry 7 KERN_SUCCESS (Some boot_args_only)).

(** macOS 11.0 with the kext bit lifted. *)
Definition big_sur : Host :=
  machine "11" "0" 1 (registry 7 KERN_SUCCESS (Some (nvram [Byte.x01]))).


(** OS X 10.11 on which [csr_check] is not bound. *)
Definition no_csr_check : Host :=
  {| selectAllFrom := fun _ => [version_row "10" "11"];
     DARWIN_10_9 := false;
     csr_check := None;
     csr_get_active_config := Some (fun _ => (0, 0));
     iokit := registry 7 KERN_SUCCESS (Some (nvram [Byte.x00])) |}.

(** A version record whose minor field is not a number. *)
Definition garbled_minor : Host :=
  machine "10" "eleven" 0 (registry 7 KERN_SUCCESS (Some boot_args_only)).

(** OS X 10.11 with [allow_apple_internal] alone in the persisted
    configuration and nothing lifted in the active one. *)
Definition apple_internal_pending : Host :=
  machine "10" "11" 0 (registry 7 KERN_SUCCESS (Some (nvram [Byte.x10]))).

(** ** Exceptions, overflow and the schema of the rows *)

(** What the gate throws on a record: [std::out_of_range] from
    [std::map::at] when the [major] key is missing, or when the major
    version is "10" and the [minor] key is missing; the exception of
    [std::stoi] when the major version is "10" and the minor version does
    not convert. *)
Definition gate_exception (record : Row) (e : exception) : Prop :=
  (record !! "major" = None ∧ e = out_of_range "map::at")
  ∨ (record !! "major" = Some "10"
     ∧ ((record !! "minor" = None ∧ e = out_of_range "map::at")
        ∨ ∃ minor, record !! "minor" = Some minor ∧ stoi_value minor = inl e)).

(** The options node opens, its properties are fetched, and
    [csr-active-config] is a [CFData] of more than four bytes. *)
Definition long_property (io : IOKit) : Prop :=
  chosen_entry io ≠ MACH_PORT_NULL
  ∧ ∃ d bytes, fetched_properties io = (KERN_SUCCESS, Some d)
               ∧ d !! "csr-active-config" = Some (CFData bytes)
               ∧ (4 < length bytes)%nat.

(** The seven ways through [genCsrConfigFromNvram], each with what the
    call yields from the ledger [held] and the value [config]: the five
    returns of lines 59, 68, 72, 79 and 91, the return of line 88, and the
    write past the array at lines 83-85. *)
Inductive reader_path (io : IOKit) (config : uint32_t) (held : ledger)
    : outcome (Status * uint32_t) → Prop :=
| path_no_node :
    chosen_entry io = MACH_PORT_NULL →
    reader_path io config held
      (Returns (mkStatus 1 "Could not open IOKit DeviceTree", config) held)
| path_no_properties kr properties :
    chosen_entry io ≠ MACH_PORT_NULL →
    fetched_properties io = (kr, properties) →
    kr ≠ KERN_SUCCESS →
    reader_path io config held
      (Returns (mkStatus 1 "Could not get IOKit options", config)
         match properties with
         | Some d => cf_object d :: held
         | None => held
         end)
| path_null_properties :
    chosen_entry io ≠ MACH_PORT_NULL →
    fetched_properties io = (KERN_SUCCESS, None) →
    reader_path io config held
      (Returns (mkStatus 1 "Could not load IOKit properties", config) held)
| path_unexpected_type d value :
    chosen_entry io ≠ MACH_PORT_NULL →
    fetched_properties io = (KERN_SUCCESS, Some d) →
    d !! "csr-active-config" = Some value →
    CFGetTypeID value ≠ CFDataGetTypeID →
    reader_path io config held
      (Returns (mkStatus 1 "Unexpected data type for csr-active-config", config)
         (cf_object d :: held))
| path_absent d :
    chosen_entry io ≠ MACH_PORT_NULL →
    fetched_properties io = (KERN_SUCCESS, Some d) →
    d !! "csr-active-config" = None →
    reader_path io config held
      (Returns (mkStatus 0 "csr-active-config key not found", config)
         (cf_object d :: held))
| path_bytes d bytes :
    chosen_entry io ≠ MACH_PORT_NULL →
    fetched_properties io = (KERN_SUCCESS, Some d) →
    d !! "csr-active-config" = Some (CFData bytes) →
    (length bytes ≤ 4)%nat →
    reader_path io config held
      (Returns (mkStatus 0 "ok", little_endian_uint32 bytes) held)
| path_overflow d bytes :
    chosen_entry io ≠ MACH_PORT_NULL →
    fetched_properties io = (KERN_SUCCESS, Some d) →
    d !! "csr-active-config" = Some (CFData bytes) →
    (4 < length bytes)%nat →
    reader_path io config held Undefined.

(** The columns of the table. *)
Definition sip_columns : gset string :=
  {[ "config_flag"; "enabled"; "enabled_nvram" ]}.

(** OS X 10.11 whose version record lacks the [minor] key. *)
Definition no_minor : Host :=
  {| selectAllFrom := fun _ => [<["major" := "10"]> ∅];
     DARWIN_10_9 := false;
     csr_check := Some (fun _ => 1);
     csr_get_active_config := Some (fun _ => (0, 0));
     iokit := registry 7 KERN_SUCCESS (Some boot_args_only) |}.

(** OS X 10.11 whose [csr-active-config] has five bytes. *)
Definition five_byte_nvram : Host :=
  machine "10" "11" 0 (registry 7 KERN_SUCCESS (Some (nvram five_bytes))).

(** OS X 10.11 with the kext and filesystem bits lifted, and the dtrace
    bit alone in a two-byte persisted configuration. *)
Definition two_bits_lifted : Host :=
  machine "10" "11" 3 (registry 7 KERN_SUCCESS (Some (nvram [Byte.x20; Byte.xff]))).

(** OS X 10.11 with the kext and filesystem bits lifted and an options
    node whose properties cannot be fetched. *)
Definition two_bits_no_properties : Host :=
  machine "10" "11" 3 (registry 7 5 None).

(** * Properties *)

(** ** The persisted reader, path by path *)

Ltac run_reader :=
  unfold genCsrConfigFromNvram, mbind, call_bind, mret, call_ret,
    IORegistryEntryFromPath, IORegistryEntryCreateCFProperties,
    IOObjectRelease, CFRelease, CFDictionaryGetValueIfPresent,
    fetched_properties, chosen_entry in *.

Lemma release_head (r : os_ref) (held : ledger) : release r (r :: held) = held.
Proof. simpl. case_decide; congruence. Qed.

Lemma release_dict_entry (port : mach_port_t) (d : gmap string CFType)
    (held : ledger) :
  release (io_object port) (cf_object d :: io_object port :: held)
  = cf_object d :: held.
Proof. simpl. repeat case_decide; congruence. Qed.

#[local] Arguments release : simpl never.
#[local] Arguments little_endian_uint32 : simpl never.

Section reader_paths.
Variables (io : IOKit) (config : uint32_t) (held : ledger).

Lemma reader_node_unavailable :
  chosen_entry io = MACH_PORT_NULL →
  genCsrConfigFromNvram io config held
  = Returns (mkStatus 1 "Could not open IOKit DeviceTree", config) held.
Proof. run_reader. intros ->. reflexivity. Qed.

Lemma reader_properties_unavailable kr properties :
  chosen_entry io ≠ MACH_PORT_NULL →
  fetched_properties io = (kr, properties) →
  kr ≠ KERN_SUCCESS →
  genCsrConfigFromNvram io config held
  = Returns (mkStatus 1 "Could not get IOKit options", config)
      match properties with
      | Some d => cf_object d :: held
      | None => held
      end.
Proof.
  run_reader. intros Hport -> Hkr.
  apply Z.eqb_neq in Hport, Hkr. rewrite Hport, Hkr. simpl.
  destruct properties; [by rewrite release_dict_entry | by rewrite release_head].
Qed.

Lemma reader_properties_null :
  chosen_entry io ≠ MACH_PORT_NULL →
  fetched_properties io = (KERN_SUCCESS, None) →
  genCsrConfigFromNvram io config held
  = Returns (mkStatus 1 "Could not load IOKit properties", config) held.
Proof.
  run_reader. intros Hport ->.
  apply Z.eqb_neq in Hport. rewrite Hport. simpl.
  by rewrite release_head.
Qed.

Lemma reader_unexpected_type d value :
  chosen_entry io ≠ MACH_PORT_NULL →
  fetched_properties io = (KERN_SUCCESS, Some d) →
  d !! "csr-active-config" = Some value →
  CFGetTypeID value ≠ CFDataGetTypeID →
  genCsrConfigFromNvram io config held
  = Returns (mkStatus 1 "Unexpected data type for csr-active-config", config)
      (cf_object d :: held).
Proof.
  run_reader. intros Hport -> -> Hty.
  apply Z.eqb_neq in Hport. rewrite Hport. simpl.
  rewrite release_dict_entry. by repeat case_decide.
Qed.

Lemma reader_property_absent d :
  chosen_entry io ≠ MACH_PORT_NULL →
  fetched_properties io = (KERN_SUCCESS, Some d) →
  d !! "csr-active-config" = None →
  genCsrConfigFromNvram io config held
  = Returns (mkStatus 0 "csr-active-config key not found", config)
      (cf_object d :: held).
Proof.
  run_reader. intros Hport -> ->.
  apply Z.eqb_neq in Hport. rewrite Hport. simpl.
  rewrite release_dict_entry. by repeat case_decide.
Qed.
End reader_paths.

(** ** Extraction of the property's bytes *)

Lemma byte_at_range (buffer : list Byte.byte) (i : nat) :
  0 ≤ byte_at buffer i < 2 ^ 8.
Proof.
  unfold byte_at. destruct (buffer !! i) as [b|]; [|lia].
  pose proof (Byte.to_N_bounded b). lia.
Qed.

Lemma lor_add_disjoint (lo hi k : Z) :
  0 ≤ k → 0 ≤ lo < 2 ^ k → Z.lor lo (2 ^ k * hi) = lo + 2 ^ k * hi.
Proof.
  intros Hk Hlo.
  assert (Z.land lo (2 ^ k * hi) = 0) as Hdisjoint.
  { apply Z.bits_inj'; intros n Hn.
    rewrite Z.land_spec, Z.bits_0, Z.mul_comm, <- Z.shiftl_mul_pow2 by lia.
    destruct (Z.lt_ge_cases n k).
    - rewrite Z.shiftl_spec_low by lia. apply andb_false_r.
    - destruct (Z.eq_dec lo 0) as [->|]; [by rewrite Z.bits_0|].
      rewrite (Z.bits_above_log2 lo n); [done | lia |].
      apply Z.log2_lt_pow2; [lia|].
      eapply Z.lt_le_trans; [apply Hlo | apply Z.pow_le_mono_r; lia]. }
  by rewrite <- Z.lxor_lor, <- Z.add_nocarry_lxor.
Qed.

Lemma lor_bytes_little_endian (buffer : list Byte.byte) :
  Z.lor (byte_at buffer 0)
    (Z.lor (Z.shiftl (byte_at buffer 1) 8)
       (Z.lor (Z.shiftl (byte_at buffer 2) 16) (Z.shiftl (byte_at buffer 3) 24)))
  = little_endian_uint32 buffer.
Proof.
  unfold little_endian_uint32.
  pose proof (byte_at_range buffer 0). pose proof (byte_at_range buffer 1).
  pose proof (byte_at_range buffer 2). pose proof (byte_at_range buffer 3).
  set (x0 := byte_at _ 0) in *. set (x1 := byte_at _ 1) in *.
  set (x2 := byte_at _ 2) in *. set (x3 := byte_at _ 3) in *.
  rewrite !Z.shiftl_mul_pow2 by lia.
  replace (x3 * 2 ^ 24) with (2 ^ 24 * x3) by lia.
  rewrite (lor_add_disjoint (x2 * 2 ^ 16)) by lia.
  replace (x2 * 2 ^ 16 + 2 ^ 24 * x3) with (2 ^ 16 * (x2 + 2 ^ 8 * x3)) by lia.
  rewrite (lor_add_disjoint (x1 * 2 ^ 8)) by lia.
  replace (x1 * 2 ^ 8 + 2 ^ 16 * (x2 + 2 ^ 8 * x3))
    with (2 ^ 8 * (x1 + 2 ^ 8 * (x2 + 2 ^ 8 * x3))) by lia.
  rewrite (lor_add_disjoint x0) by lia.
  lia.
Qed.

(** A buffer of at most four bytes: the whole of it is copied over the
    zeroed array, the dictionary is released, and the value is the buffer
    read least significant byte first, the missing bytes zero. *)
Lemma reader_bytes_fit (io : IOKit) (config : uint32_t) (held : ledger)
    (d : gmap string CFType) (bytes : list Byte.byte) :
  chosen_entry io ≠ MACH_PORT_NULL →
  fetched_properties io = (KERN_SUCCESS, Some d) →
  d !! "csr-active-config" = Some (CFData bytes) →
  (length bytes ≤ 4)%nat →
  genCsrConfigFromNvram io config held
  = Returns (mkStatus 0 "ok", little_endian_uint32 bytes) held.
Proof.
  run_reader. intros Hport -> -> Hlen.
  apply Z.eqb_neq in Hport. rewrite Hport. simpl.
  rewrite release_dict_entry.
  destruct bytes as [|b0 [|b1 [|b2 [|b3 [|b4 bytes]]]]]; simpl in Hlen; try lia;
    simpl; rewrite release_head, lor_bytes_little_endian; reflexivity.
Qed.

(** A longer buffer: [CFDataGetBytes] is asked for all of it and writes
    past the four-byte array. *)
Lemma reader_bytes_overflow (io : IOKit) (config : uint32_t) (held : ledger)
    (d : gmap string CFType) (bytes : list Byte.byte) :
  chosen_entry io ≠ MACH_PORT_NULL →
  fetched_properties io = (KERN_SUCCESS, Some d) →
  d !! "csr-active-config" = Some (CFData bytes) →
  (4 < length bytes)%nat →
  genCsrConfigFromNvram io config held = Undefined.
Proof.
  run_reader. intros Hport -> -> Hlen.
  apply Z.eqb_neq in Hport. rewrite Hport. simpl.
  rewrite release_dict_entry. unfold CFDataGetBytes. simpl location. simpl length_.
  replace (0 + Z.of_nat (length bytes) <=? Z.of_nat (length bytes)) with true
    by (symmetry; apply Z.leb_le; lia).
  replace (0 <=? Z.of_nat (length bytes)) with true
    by (symmetry; apply Z.leb_le; lia).
  replace (Z.of_nat (length bytes) <=? Z.of_nat 4)
    with false by (symmetry; apply Z.leb_gt; lia).
  reflexivity.
Qed.

(** ** When the persisted reader fails *)

(** C6, as stated, fails: a registry node whose dictionary is there but
    holds no entry makes the reader answer "key not found" with a success
    status, where the claim counts an empty dictionary among the errors. *)
Lemma reader_empty_dictionary_succeeds : ¬ raises_iff_null_or_empty.
Proof.
  intros Hclaim.
  destruct (Hclaim (registry 7 KERN_SUCCESS (Some ∅)) 0 []) as [[_ Hfail] _].
  destruct Hfail as (status & config' & held' & Hrun & Hok).
  - right; right; left; right. reflexivity.
  - vm_compute in Hrun. injection Hrun as <- <- <-. discriminate Hok.
Qed.

(** C6, amended: [genCsrConfigFromNvram] returns a failing status exactly
    when (1) the registry node cannot be opened, (2) its properties cannot
    be fetched, (3) the fetched dictionary is a null pointer, or (4) the
    [csr-active-config] property is present but is not a [CFData]; when
    none of these holds and the property is absent (also from a dictionary
    with no entries) or is a [CFData] of at most four bytes, it returns a
    success status. *)
Theorem reader_raises_iff (io : IOKit) (config : uint32_t) (held : ledger) :
  (reader_fails io config held ↔
     node_unavailable io ∨ properties_unavailable io
     ∨ properties_null io ∨ unexpected_type io)
  ∧ (¬ (node_unavailable io ∨ properties_unavailable io
        ∨ properties_null io ∨ unexpected_type io) ∧
     (csr_property io = None
      ∨ ∃ bytes, csr_property io = Some (CFData bytes) ∧ (length bytes ≤ 4)%nat) →
     reader_succeeds io config held).
Proof.
  unfold reader_fails, reader_succeeds, node_unavailable, properties_unavailable,
    properties_null, unexpected_type, csr_property.
  destruct (decide (chosen_entry io = MACH_PORT_NULL)) as [Hnode|Hnode].
  { rewrite (reader_node_unavailable _ _ _ Hnode). split; [|tauto].
    split; [tauto | intros _; eauto]. }
  destruct (fetched_properties io) as [kr properties] eqn:Hfetch. simpl.
  destruct (decide (kr = KERN_SUCCESS)) as [->|Hkr].
  2: { rewrite (reader_properties_unavailable _ _ _ _ _ Hnode Hfetch Hkr).
       split; [|tauto]. split; [tauto | intros _; eauto]. }
  destruct properties as [d|]; simpl.
  2: { rewrite (reader_properties_null _ _ _ Hnode Hfetch).
       split; [|tauto]. split; [tauto | intros _; eauto]. }
  destruct (d !! "csr-active-config") as [value|] eqn:Hvalue.
  2: { rewrite (reader_property_absent _ _ _ _ Hnode Hfetch Hvalue). split.
       - split.
         + intros (? & ? & ? & [= <- <- <-] & [=]).
         + intros [|[|[|(? & [=] & _)]]]; done.
       - intros _; eauto. }
  destruct (decide (CFGetTypeID value = CFDataGetTypeID)) as [Hty|Hty].
  2: { rewrite (reader_unexpected_type _ _ _ _ _ Hnode Hfetch Hvalue Hty). split.
       - split; [|intros _; eauto]. intros _. do 3 right. eauto.
       - intros [Hno _]. exfalso. apply Hno. do 3 right. eauto. }
  destruct value as [bytes| | |]; try discriminate Hty.
  split.
  - split.
    + destruct (decide (length bytes ≤ 4)%nat) as [Hlen|Hlen].
      * rewrite (reader_bytes_fit _ _ _ _ _ Hnode Hfetch Hvalue Hlen).
        intros (? & ? & ? & [= <- <- <-] & [=]).
      * rewrite (reader_bytes_overflow _ _ _ _ _ Hnode Hfetch Hvalue) by lia.
        intros (? & ? & ? & [=] & _).
    + intros [|[|[|(? & [= <-] & Hbad)]]]; done.
  - intros [_ [[=]|(bytes' & [= <-] & Hlen)]].
    rewrite (reader_bytes_fit _ _ _ _ _ Hnode Hfetch Hvalue Hlen). eauto.
Qed.

(** ** Two inputs on which the reader goes wrong *)

(** C7 at a five-byte [csr-active-config]: the range handed to
    [CFDataGetBytes] is the whole buffer, (0, 5), against the four-byte
    array, so five bytes are written and the call has no defined result;
    the claim bounds the copy by four bytes for every buffer. *)
Theorem extraction_of_five_bytes_overflows :
  CFDataGetLength (CFData five_bytes) [] = Returns 5 []
  ∧ CFDataGetBytes (CFData five_bytes) (CFRangeMake 0 5) (replicate 4 Byte.x00) []
    = Undefined
  ∧ genCsrConfigFromNvram (registry 7 KERN_SUCCESS (Some (nvram five_bytes))) 0 []
    = Undefined.
Proof. repeat split; vm_compute; reflexivity. Qed.

(** C8 at a node whose dictionary lacks [csr-active-config]: the call
    returns "key not found" and the created dictionary is still held; only
    the path that reads the bytes calls [CFRelease]. *)
Theorem absent_property_leaks_dictionary :
  genCsrConfigFromNvram (registry 7 KERN_SUCCESS (Some boot_args_only)) 0 []
  = Returns (mkStatus 0 "csr-active-config key not found", 0)
      [cf_object boot_args_only].
Proof. vm_compute. reflexivity. Qed.

(** The same on the wrong-type return. *)
Example wrong_type_leaks_dictionary :
  let d : gmap string CFType := <["csr-active-config" := CFString "%10%00%00%00"]> ∅ in
  genCsrConfigFromNvram (registry 7 KERN_SUCCESS (Some d)) 0 []
  = Returns (mkStatus 1 "Unexpected data type for csr-active-config", 0)
      [cf_object d].
Proof. vm_compute. reflexivity. Qed.

(** ** The version gate *)

Ltac run_gate :=
  unfold genSIPConfig, mbind, call_bind, mret, call_ret, front, map_at, stoi, throw.

Lemma gate_too_old (host : Host) (held : ledger) (record : Row) :
  selectAllFrom host "os_version" = [record] →
  too_old record →
  genSIPConfig host held = Returns [] held.
Proof.
  intros Hone (Hmajor & minor & n & Hminor & Hparse & Hlt).
  run_gate. rewrite Hone. simpl. rewrite Hmajor. simpl.
  rewrite Hminor. simpl. rewrite Hparse. simpl. by apply Z.ltb_lt in Hlt as ->.
Qed.

Lemma gate_supported (host : Host) (held : ledger) (record : Row) :
  selectAllFrom host "os_version" = [record] →
  supported record →
  genSIPConfig host held = sip_config_rows host held.
Proof.
  intros Hone (major & Hmajor & Hver).
  run_gate. rewrite Hone. simpl. rewrite Hmajor. simpl.
  destruct Hver as [Hne | (minor & n & Hminor & Hparse & Hge)].
  - apply String.eqb_neq in Hne. by rewrite Hne.
  - destruct (String.eqb major "10"); [|done].
    rewrite Hminor. simpl. rewrite Hparse. simpl. by apply Z.ltb_ge in Hge as ->.
Qed.

Lemma gate_throws (host : Host) (held : ledger) (record : Row)
    (minor : string) (e : exception) :
  selectAllFrom host "os_version" = [record] →
  record !! "major" = Some "10" →
  record !! "minor" = Some minor →
  stoi_value minor = inl e →
  genSIPConfig host held = Throws e held.
Proof.
  intros Hone Hmajor Hminor Hparse.
  run_gate. rewrite Hone. simpl. rewrite Hmajor. simpl.
  rewrite Hminor. simpl. by rewrite Hparse.
Qed.

(** A call that returns rows got through the gate. *)
Lemma gate_inversion (host : Host) (held held' : ledger) (rows : QueryData) :
  genSIPConfig host held = Returns rows held' →
  rows ≠ [] →
  gate_passes host ∧ sip_config_rows host held = Returns rows held'.
Proof.
  intros Hrun Hrows. unfold gate_passes, supported.
  revert Hrun. run_gate.
  destruct (selectAllFrom host "os_version") as [|record [|]]; simpl;
    try (intros [= <- <-]; done).
  destruct (record !! "major") as [major|] eqn:Hmajor; [|intros [=]].
  simpl. destruct (String.eqb major "10") eqn:Hten.
  - destruct (record !! "minor") as [minor|] eqn:Hminor; [|intros [=]].
    simpl. destruct (stoi_value minor) as [e|n] eqn:Hparse; [intros [=]|].
    simpl.
    destruct (n <? 11) eqn:Hn; [intros [= <- <-]; done|].
    intros Hrun. split; [|done].
    exists record. split; [done|]. exists major. split; [done|].
    right. exists minor, n. apply Z.ltb_ge in Hn. done.
  - intros Hrun. split; [|done].
    exists record. split; [done|]. exists major. split; [done|].
    left. by apply String.eqb_neq.
Qed.

(** ** The rows behind the gate *)

Lemma flag_loop (check : csr_config_t → Z) (nvram_status : Status)
    (nvram_config : uint32_t) (flags : list (string * uint32_t)) :
  ∀ (r : Row) (results : QueryData),
    ∃ rows,
      (fold_left (flag_row check nvram_status nvram_config) flags (r, results)).2
      = (results ++ rows)%list
      ∧ Forall2 (flag_observation check nvram_status nvram_config (r !! "enabled_nvram"))
          flags rows.
Proof.
  induction flags as [|kv flags IH]; intros r results.
  - exists []. split; [by rewrite app_nil_r | constructor].
  - simpl fold_left.
    set (r' := if ok nvram_status then _ else _).
    destruct (IH r' (results ++ [r'])%list) as (rows & Hfold & Hrows).
    exists (r' :: rows). split; [by rewrite Hfold, <- app_assoc|].
    assert (flag_observation check nvram_status nvram_config
              (r !! "enabled_nvram") kv r') as Hhead.
    { unfold flag_observation. subst r'.
      destruct (ok nvram_status), (check kv.2 =? 0), (Z.land nvram_config kv.2 =? 0);
        by simplify_map_eq. }
    constructor; [done|].
    eapply Forall2_impl; [exact Hrows|].
    intros kv' row (Hname & Hlive & Hnvram). repeat split; [done..|].
    rewrite Hnvram. destruct Hhead as (_ & _ & Hcarried).
    by destruct (ok nvram_status).
Qed.

Lemma catalogue_order :
  kRootlessConfigFlags
  = [ ("allow_apple_internal", 16); ("allow_device_configuration", 128);
      ("allow_kernel_debugger", 8); ("allow_task_for_pid", 4);
      ("allow_unrestricted_dtrace", 32); ("allow_unrestricted_fs", 2);
      ("allow_unrestricted_nvram", 64); ("allow_untrusted_kexts", 1) ].
Proof. vm_compute. reflexivity. Qed.

Lemma valid_allowed_flags_value : valid_allowed_flags = 255.
Proof. vm_compute. reflexivity. Qed.

Ltac run_rows :=
  unfold sip_config_rows, mbind, call_bind, mret, call_ret.

Lemma rows_unbound (host : Host) (held : ledger) :
  csr_get_active_config host = None ∨ csr_check host = None →
  sip_config_rows host held = Returns [] held.
Proof.
  run_rows. intros [Hnull | Hnull]; rewrite Hnull.
  - by destruct (DARWIN_10_9 host).
  - by destruct (DARWIN_10_9 host), (csr_get_active_config host).
Qed.

Lemma rows_bound (host : Host) (held held' : ledger)
    (get : csr_config_t → Z * Z) (check : csr_config_t → Z)
    (nvram_status : Status) (nvram_config : uint32_t) :
  DARWIN_10_9 host = false →
  csr_get_active_config host = Some get →
  csr_check host = Some check →
  genCsrConfigFromNvram (iokit host) 0 held = Returns (nvram_status, nvram_config) held' →
  ∃ rest,
    sip_config_rows host held = Returns (sip_row (active_config get) :: rest) held'
    ∧ Forall2 (flag_observation check nvram_status nvram_config
                 (sip_row (active_config get) !! "enabled_nvram"))
        kRootlessConfigFlags rest.
Proof.
  intros Hbuild Hget Hcheck Hread.
  run_rows. rewrite Hbuild, Hget, Hcheck, Hread. fold (active_config get).
  destruct (flag_loop check nvram_status nvram_config kRootlessConfigFlags
              (sip_row (active_config get)) ([] ++ [sip_row (active_config get)])%list)
    as (rest & -> & Hrest).
  by exists rest.
Qed.

Lemma rows_inversion (host : Host) (held held' : ledger) (rows : QueryData) :
  sip_config_rows host held = Returns rows held' →
  rows ≠ [] →
  ∃ get check nvram_status nvram_config,
    DARWIN_10_9 host = false
    ∧ csr_get_active_config host = Some get
    ∧ csr_check host = Some check
    ∧ genCsrConfigFromNvram (iokit host) 0 held
      = Returns (nvram_status, nvram_config) held'.
Proof.
  run_rows. intros Hrun Hrows.
  destruct (DARWIN_10_9 host); [by injection Hrun as <- <-|].
  destruct (csr_get_active_config host) as [get|]; [|by injection Hrun as <- <-].
  destruct (csr_check host) as [check|]; [|by injection Hrun as <- <-].
  destruct (genCsrConfigFromNvram (iokit host) 0 held)
    as [[nvram_status nvram_config] held''| |]; [|done..].
  assert (held'' = held') as -> by congruence.
  by exists get, check, nvram_status, nvram_config.
Qed.

(** The reader returns a status or has no defined result; it throws
    nothing. *)
Lemma reader_never_throws (io : IOKit) (config : uint32_t) (held held' : ledger)
    (e : exception) :
  genCsrConfigFromNvram io config held ≠ Throws e held'.
Proof.
  destruct (decide (chosen_entry io = MACH_PORT_NULL)) as [Hnode|Hnode].
  { by rewrite (reader_node_unavailable _ _ _ Hnode). }
  destruct (fetched_properties io) as [kr properties] eqn:Hfetch.
  destruct (decide (kr = KERN_SUCCESS)) as [->|Hkr].
  2: { by rewrite (reader_properties_unavailable _ _ _ _ _ Hnode Hfetch Hkr). }
  destruct properties as [d|].
  2: { by rewrite (reader_properties_null _ _ _ Hnode Hfetch). }
  destruct (d !! "csr-active-config") as [value|] eqn:Hvalue.
  2: { by rewrite (reader_property_absent _ _ _ _ Hnode Hfetch Hvalue). }
  destruct (decide (CFGetTypeID value = CFDataGetTypeID)) as [Hty|Hty].
  2: { by rewrite (reader_unexpected_type _ _ _ _ _ Hnode Hfetch Hvalue Hty). }
  destruct value as [bytes| | |]; try discriminate Hty.
  destruct (decide (length bytes ≤ 4)%nat) as [Hlen|Hlen].
  - by rewrite (reader_bytes_fit _ _ _ _ _ Hnode Hfetch Hvalue Hlen).
  - by rewrite (reader_bytes_overflow _ _ _ _ _ Hnode Hfetch Hvalue) by lia.
Qed.

Lemma rows_never_throw (host : Host) (held held' : ledger) (e : exception) :
  sip_config_rows host held ≠ Throws e held'.
Proof.
  run_rows.
  destruct (DARWIN_10_9 host); [done|].
  destruct (csr_get_active_config host) as [get|]; [|done].
  destruct (csr_check host) as [check|]; [|done].
  pose proof (reader_never_throws (iokit host) 0 held) as Hreader.
  destruct (genCsrConfigFromNvram (iokit host) 0 held)
    as [[nvram_status nvram_config] held''|e' held''|]; [done| |done].
  intros [= -> ->]. by eapply Hreader.
Qed.

(** ** The sample machines at the gate *)

Lemma supported_10_11 : supported (version_row "10" "11").
Proof.
  exists "10". split; [done|]. right. exists "11", 11.
  split; [reflexivity|]. split; [vm_compute; reflexivity | lia].
Qed.

Lemma supported_11_0 : supported (version_row "11" "0").
Proof. exists "11". split; [done|]. by left. Qed.

Lemma Forall2_Forall_r {A B : Type} (R : A → B → Prop) (P : B → Prop)
    (l : list A) (k : list B) :
  (∀ a b, R a b → P b) → Forall2 R l k → Forall P k.
Proof. intros HRP. induction 1; constructor; eauto. Qed.

(** A sample machine that is past the gate emits the aggregate row and
    one row per catalogue entry. *)
Lemma machine_runs (major minor : string) (active : Z) (io : IOKit)
    (nvram_status : Status) (nvram_config : uint32_t) (held' : ledger) :
  supported (version_row major minor) →
  genCsrConfigFromNvram io 0 [] = Returns (nvram_status, nvram_config) held' →
  ∃ first rest,
    genSIPConfig (machine major minor active io) [] = Returns (first :: rest) held'
    ∧ first = sip_row (to_uint32 active)
    ∧ Forall2 (flag_observation (λ mask, if Z.land active mask =? 0 then 1 else 0)
                 nvram_status nvram_config (first !! "enabled_nvram"))
        kRootlessConfigFlags rest.
Proof.
  intros Hsupported Hread.
  destruct (rows_bound (machine major minor active io) [] held' _ _ _ _
              eq_refl eq_refl eq_refl Hread) as (rest & Hrows & Hrest).
  eexists _, rest. split; [|split; [reflexivity | exact Hrest]].
  by rewrite (gate_supported _ _ (version_row major minor)).
Qed.

(** ** C1: the availability gate *)

(** C1, as stated, fails: the record of macOS 11.0 has a major version
    other than "10", and the call goes on to emit its nine rows. *)
Lemma gate_admits_major_11 : ¬ gate_admits_only_10_11.
Proof.
  intros Hclaim.
  specialize (Hclaim big_sur [] (version_row "11" "0") eq_refl).
  assert (observations (genSIPConfig big_sur []) = Some 9%nat) as Hrows
    by (vm_compute; reflexivity).
  rewrite Hclaim in Hrows; [discriminate Hrows|].
  intros [[=] _].
Qed.

(** C1, amended: given exactly one OS-version record, [genSIPConfig]
    returns zero observations when the record's major version is "10" and
    its minor version is an integer below 11; a record whose major version
    is "10" with a minor version of at least 11, or whose major version is
    anything but "10", passes the gate, and with both live entry points
    bound and the persisted reader returning, the aggregate observation and
    the eight per-flag observations are emitted. *)
Theorem availability_gate (host : Host) (held : ledger) (record : Row) :
  selectAllFrom host "os_version" = [record] →
  (too_old record → genSIPConfig host held = Returns [] held)
  ∧ (supported record →
     DARWIN_10_9 host = false →
     is_Some (csr_get_active_config host) →
     is_Some (csr_check host) →
     ∀ nvram_status nvram_config held',
       genCsrConfigFromNvram (iokit host) 0 held
       = Returns (nvram_status, nvram_config) held' →
       ∃ rows, genSIPConfig host held = Returns rows held' ∧ length rows = 9%nat).
Proof.
  intros Hone. split; [by apply gate_too_old|].
  intros Hsupported Hbuild [get Hget] [check Hcheck] nvram_status nvram_config held' Hread.
  destruct (rows_bound _ _ _ _ _ _ _ Hbuild Hget Hcheck Hread) as (rest & Hrows & Hrest).
  eexists. split; [by rewrite (gate_supported _ _ _ Hone Hsupported)|].
  apply Forall2_length in Hrest. rewrite catalogue_order in Hrest.
  simpl in *. lia.
Qed.

Lemma availability_gate_witness :
  (selectAllFrom yosemite "os_version" = [version_row "10" "10"]
   ∧ too_old (version_row "10" "10")
   ∧ genSIPConfig yosemite [] = Returns [] [])
  ∧ (selectAllFrom big_sur "os_version" = [version_row "11" "0"]
     ∧ supported (version_row "11" "0")
     ∧ ∃ rows held', genSIPConfig big_sur [] = Returns rows held' ∧ length rows = 9%nat).
Proof.
  split.
  - split; [reflexivity|].
    assert (too_old (version_row "10" "10")) as Hold.
    { split; [reflexivity|]. exists "10", 10.
      split; [reflexivity|]. split; [vm_compute; reflexivity | lia]. }
    split; [exact Hold|].
    exact (proj1 (availability_gate yosemite [] (version_row "10" "10") eq_refl) Hold).
  - split; [reflexivity|]. split; [apply supported_11_0|].
    destruct (proj2 (availability_gate big_sur [] (version_row "11" "0") eq_refl)
                supported_11_0 eq_refl (mk_is_Some _ _ eq_refl) (mk_is_Some _ _ eq_refl)
                (mkStatus 0 "ok") 1 [])
      as (rows & Hrun & Hlen).
    + vm_compute. reflexivity.
    + by exists rows, [].
Defined.

(** ** C5: the live capability gap *)

(** C5: when the version gate passes but [csr_get_active_config] or
    [csr_check] is not bound, [genSIPConfig] returns zero observations,
    whatever the registry holds: the persisted reader is not called and
    the ledger is untouched. *)
Theorem live_capability_gap (host : Host) (held : ledger) :
  gate_passes host →
  csr_get_active_config host = None ∨ csr_check host = None →
  genSIPConfig host held = Returns [] held.
Proof.
  intros (record & Hone & Hsupported) Hnull.
  rewrite (gate_supported _ _ _ Hone Hsupported). by apply rows_unbound.
Qed.

Lemma live_capability_gap_witness :
  gate_passes no_csr_check
  ∧ (csr_get_active_config no_csr_check = None ∨ csr_check no_csr_check = None)
  ∧ reader_succeeds (iokit no_csr_check) 0 []
  ∧ genSIPConfig no_csr_check [] = Returns [] [].
Proof.
  assert (gate_passes no_csr_check) as Hgate
    by (exists (version_row "10" "11"); split; [reflexivity | apply supported_10_11]).
  split; [exact Hgate|]. split; [by right|]. split.
  - eexists _, _, _. split; vm_compute; reflexivity.
  - apply (live_capability_gap no_csr_check [] Hgate). by right.
Defined.

(** ** C9: the gate throws on a minor version that is not a number *)

(** C9: with exactly one record whose major field is "10", a minor field
    on which [std::stoi] throws makes [genSIPConfig] throw that exception
    (no row, no denial); on a minor field that [std::stoi] converts the
    call throws nothing. *)
Theorem gate_propagates_stoi (host : Host) (held : ledger) (record : Row)
    (minor : string) :
  selectAllFrom host "os_version" = [record] →
  record !! "major" = Some "10" →
  record !! "minor" = Some minor →
  match stoi_value minor with
  | inl e => genSIPConfig host held = Throws e held
  | inr _ => ∀ e held', genSIPConfig host held ≠ Throws e held'
  end.
Proof.
  intros Hone Hmajor Hminor.
  destruct (stoi_value minor) as [e|n] eqn:Hparse.
  - by eapply gate_throws.
  - intros e held'. destruct (Z.lt_ge_cases n 11) as [Hlt|Hge].
    + rewrite (gate_too_old _ _ record Hone); [done|].
      split; [done|]. by exists minor, n.
    + rewrite (gate_supported _ _ record Hone); [apply rows_never_throw|].
      exists "10". split; [done|]. right. by exists minor, n.
Qed.

Lemma gate_propagates_stoi_witness :
  selectAllFrom garbled_minor "os_version" = [version_row "10" "eleven"]
  ∧ version_row "10" "eleven" !! "major" = Some "10"
  ∧ version_row "10" "eleven" !! "minor" = Some "eleven"
  ∧ stoi_value "eleven" = inl (invalid_argument "stoi")
  ∧ genSIPConfig garbled_minor [] = Throws (invalid_argument "stoi") [].
Proof.
  do 4 (split; [reflexivity|]).
  exact (gate_propagates_stoi garbled_minor [] (version_row "10" "eleven") "eleven"
           eq_refl eq_refl eq_refl).
Defined.

(** ** C4 and C10: the aggregate observation *)

Lemma sip_row_enabled :
  sip_row 0
  = <["enabled_nvram" := "1"]> (<["enabled" := "1"]> {["config_flag" := "sip"]}).
Proof. reflexivity. Qed.

Lemma sip_row_disabled (config : csr_config_t) :
  config ≠ 0 →
  Z.lor config valid_allowed_flags = valid_allowed_flags →
  sip_row config
  = <["enabled_nvram" := "0"]> (<["enabled" := "0"]> {["config_flag" := "sip"]}).
Proof.
  intros Hne Hvalid. unfold sip_row.
  apply Z.eqb_neq in Hne. apply Z.eqb_eq in Hvalid. by rewrite Hne, Hvalid.
Qed.

Lemma sip_row_unknown (config : csr_config_t) :
  config ≠ 0 →
  Z.lor config valid_allowed_flags ≠ valid_allowed_flags →
  sip_row config = {["config_flag" := "sip"]}.
Proof.
  intros Hne Hvalid. unfold sip_row.
  apply Z.eqb_neq in Hne, Hvalid. by rewrite Hne, Hvalid.
Qed.

Lemma validUnion_value : validUnion = 255.
Proof. vm_compute. reflexivity. Qed.

(** The catalogue has the bits 0 to 7 and no other. *)
Lemma catalogue_bit_low (i : Z) : catalogue_bit i → 0 ≤ i < 8.
Proof.
  intros (kv & Hin & Hbit). rewrite catalogue_order in Hin.
  repeat (apply elem_of_cons in Hin as [-> | Hin]);
    try (by apply elem_of_nil in Hin); simpl in Hbit;
    (destruct (Z.lt_ge_cases i 0);
     [rewrite Z.testbit_neg_r in Hbit by lia; discriminate Hbit|]);
    (destruct (Z.lt_ge_cases i 8); [lia|]);
    rewrite Z.bits_above_log2 in Hbit by (cbn; lia); discriminate Hbit.
Qed.

(** C4: whenever [genSIPConfig] emits observations, the first one is the
    aggregate "sip" row; if the active configuration is 0 it has
    [enabled = 1] and [enabled_nvram = 1]; otherwise, if the active
    configuration ORed with the union of the catalogue's bits is that
    union, which is to say if every set bit of the active configuration is
    a bit of a catalogue entry, it has [enabled = 0] and
    [enabled_nvram = 0]. The union is the specification's ([validUnion],
    255), not the value the code computes for its own test. *)
Theorem aggregate_observation_values (host : Host) (held held' : ledger)
    (rows : QueryData) :
  genSIPConfig host held = Returns rows held' →
  rows ≠ [] →
  ∃ get first,
    csr_get_active_config host = Some get
    ∧ head rows = Some first
    ∧ first !! "config_flag" = Some "sip"
    ∧ (active_config get = 0 →
       first !! "enabled" = Some "1" ∧ first !! "enabled_nvram" = Some "1")
    ∧ (active_config get ≠ 0 →
       Z.lor (active_config get) validUnion = validUnion →
       first !! "enabled" = Some "0" ∧ first !! "enabled_nvram" = Some "0")
    ∧ (active_config get ≠ 0 →
       (∀ i, Z.testbit (active_config get) i = true → catalogue_bit i) →
       first !! "enabled" = Some "0" ∧ first !! "enabled_nvram" = Some "0").
Proof.
  intros Hrun Hrows.
  destruct (gate_inversion _ _ _ _ Hrun Hrows) as [_ Hlive].
  destruct (rows_inversion _ _ _ _ Hlive Hrows)
    as (get & check & nvram_status & nvram_config & Hbuild & Hget & Hcheck & Hread).
  destruct (rows_bound _ _ _ _ _ _ _ Hbuild Hget Hcheck Hread) as (rest & Hrest & _).
  rewrite Hrest in Hlive. injection Hlive as <-.
  exists get, (sip_row (active_config get)). split; [done|]. split; [done|].
  split; [|split; [|split]].
  - unfold sip_row.
    destruct (active_config get =? 0); [by simplify_map_eq|].
    destruct (Z.lor _ _ =? _); by simplify_map_eq.
  - intros ->. rewrite sip_row_enabled. by simplify_map_eq.
  - intros Hne Hvalid.
    rewrite validUnion_value, <- valid_allowed_flags_value in Hvalid.
    rewrite (sip_row_disabled _ Hne Hvalid). by simplify_map_eq.
  - intros Hne Hbits.
    assert (Z.lor (active_config get) valid_allowed_flags = valid_allowed_flags)
      as Hvalid.
    { rewrite valid_allowed_flags_value. apply Z.bits_inj'. intros n Hn.
      rewrite Z.lor_spec.
      destruct (Z.testbit (active_config get) n) eqn:Hbit; [|done].
      apply Hbits, catalogue_bit_low in Hbit.
      change 255 with (Z.ones 8). by rewrite Z.ones_spec_low by lia. }
    rewrite (sip_row_disabled _ Hne Hvalid). by simplify_map_eq.
Qed.

Lemma aggregate_observation_values_witness :
  (∃ rows held' first,
     genSIPConfig el_capitan [] = Returns rows held'
     ∧ rows ≠ []
     ∧ active_config (λ _, (0, 0)) = 0
     ∧ head rows = Some first
     ∧ first !! "config_flag" = Some "sip"
     ∧ first !! "enabled" = Some "1"
     ∧ first !! "enabled_nvram" = Some "1")
  ∧ (∃ rows held' first,
       genSIPConfig big_sur [] = Returns rows held'
       ∧ rows ≠ []
       ∧ active_config (λ _, (0, 1)) ≠ 0
       ∧ Z.lor (active_config (λ _, (0, 1))) validUnion = validUnion
       ∧ head rows = Some first
       ∧ first !! "config_flag" = Some "sip"
       ∧ first !! "enabled" = Some "0"
       ∧ first !! "enabled_nvram" = Some "0").
Proof.
  split.
  - destruct (machine_runs "10" "11" 0 (registry 7 KERN_SUCCESS (Some boot_args_only))
                (mkStatus 0 "csr-active-config key not found") 0
                [cf_object boot_args_only] supported_10_11)
      as (row & rest & Hrun & _); [vm_compute; reflexivity|].
    assert (row :: rest ≠ []) as Hrows by discriminate.
    destruct (aggregate_observation_values el_capitan [] _ _ Hrun Hrows)
      as (get & first & Hget & Hhead & Hname & Hzero & _).
    injection Hget as <-.
    exists (row :: rest), [cf_object boot_args_only], first.
    split; [exact Hrun|]. split; [exact Hrows|]. split; [reflexivity|].
    split; [exact Hhead|]. split; [exact Hname|]. exact (Hzero eq_refl).
  - destruct (machine_runs "11" "0" 1 (registry 7 KERN_SUCCESS (Some (nvram [Byte.x01])))
                (mkStatus 0 "ok") 1 [] supported_11_0)
      as (row & rest & Hrun & _); [vm_compute; reflexivity|].
    assert (row :: rest ≠ []) as Hrows by discriminate.
    destruct (aggregate_observation_values big_sur [] _ _ Hrun Hrows)
      as (get & first & Hget & Hhead & Hname & _ & Hvalid & _).
    injection Hget as <-.
    assert (active_config (λ _ : csr_config_t, (0, 1)) ≠ 0) as Hne by discriminate.
    assert (Z.lor (active_config (λ _ : csr_config_t, (0, 1))) validUnion = validUnion)
      as Hunion by (vm_compute; reflexivity).
    exists (row :: rest), [], first.
    split; [exact Hrun|]. split; [exact Hrows|]. split; [exact Hne|].
    split; [exact Hunion|]. split; [exact Hhead|]. split; [exact Hname|].
    exact (Hvalid Hne Hunion).
Defined.



(** ** C2 and C3: the persisted field of the per-flag observations *)

Lemma el_capitan_passes : gate_passes el_capitan.
Proof. exists (version_row "10" "11"). split; [reflexivity | apply supported_10_11]. Qed.

Lemma el_capitan_property_absent : property_absent (iokit el_capitan).
Proof. split; [discriminate|]. exists boot_args_only. split; reflexivity. Qed.

(** C2, as stated, fails: on OS X 10.11 with SIP enabled and no
    [csr-active-config] in the options node, the reader's status is a
    success and line 146 writes [enabled_nvram = 0] into the first per-flag
    row (and every other). *)
Lemma absent_property_sets_nvram : ¬ absent_property_omits_nvram.
Proof.
  intros Hclaim.
  destruct (machine_runs "10" "11" 0 (registry 7 KERN_SUCCESS (Some boot_args_only))
              (mkStatus 0 "csr-active-config key not found") 0
              [cf_object boot_args_only] supported_10_11)
    as (first & rest & Hrun & _ & Hrest); [vm_compute; reflexivity|].
  specialize (Hclaim el_capitan [] _ _ el_capitan_passes eq_refl
                (mk_is_Some _ _ eq_refl) (mk_is_Some _ _ eq_refl)
                el_capitan_property_absent Hrun).
  simpl in Hclaim. rewrite catalogue_order in Hrest.
  inversion Hrest as [|kv row flags rest' (_ & _ & Hnvram) _ Hflags Hrows]; subst.
  apply Forall_cons_1 in Hclaim as [Hnone _].
  simpl in Hnvram. rewrite Hnone in Hnvram. discriminate Hnvram.
Qed.

(** C2, amended: when the gate passes, the live entry points are bound and
    the registry node and its property dictionary are readable but hold no
    [csr-active-config], the call returns the aggregate observation and
    eight per-flag observations, and each of the eight has
    [enabled_nvram = 0]: the reader reports success and leaves the
    persisted configuration at 0. *)
Theorem absent_property_nvram_zero (host : Host) (held : ledger) :
  gate_passes host →
  DARWIN_10_9 host = false →
  is_Some (csr_get_active_config host) →
  is_Some (csr_check host) →
  property_absent (iokit host) →
  ∃ first rest held',
    genSIPConfig host held = Returns (first :: rest) held'
    ∧ length rest = 8%nat
    ∧ Forall (λ row : Row, row !! "enabled_nvram" = Some "0") rest.
Proof.
  intros (record & Hone & Hsupported) Hbuild [get Hget] [check Hcheck]
    (Hnode & d & Hfetch & Habsent).
  pose proof (reader_property_absent _ 0 held _ Hnode Hfetch Habsent) as Hread.
  destruct (rows_bound _ _ _ _ _ _ _ Hbuild Hget Hcheck Hread) as (rest & Hrows & Hrest).
  exists (sip_row (active_config get)), rest, (cf_object d :: held).
  split; [by rewrite (gate_supported _ _ _ Hone Hsupported)|]. split.
  - apply Forall2_length in Hrest. by rewrite catalogue_order in Hrest.
  - eapply Forall2_Forall_r; [|exact Hrest].
    intros kv row (_ & _ & Hnvram). by rewrite Hnvram.
Qed.

Lemma absent_property_nvram_zero_witness :
  gate_passes el_capitan
  ∧ property_absent (iokit el_capitan)
  ∧ ∃ first rest held',
      genSIPConfig el_capitan [] = Returns (first :: rest) held'
      ∧ length rest = 8%nat
      ∧ Forall (λ row : Row, row !! "enabled_nvram" = Some "0") rest.
Proof.
  split; [exact el_capitan_passes|]. split; [exact el_capitan_property_absent|].
  exact (absent_property_nvram_zero el_capitan [] el_capitan_passes eq_refl
           (mk_is_Some _ _ eq_refl) (mk_is_Some _ _ eq_refl)
           el_capitan_property_absent).
Defined.

(** When the reader fails, the loop never writes [enabled_nvram]: every
    per-flag row keeps the field of the aggregate row it was copied from. *)
Lemma failed_read_carries_aggregate (host : Host) (held held' : ledger)
    (get : csr_config_t → Z * Z) (check : csr_config_t → Z)
    (nvram_status : Status) (nvram_config : uint32_t) :
  gate_passes host →
  DARWIN_10_9 host = false →
  csr_get_active_config host = Some get →
  csr_check host = Some check →
  genCsrConfigFromNvram (iokit host) 0 held = Returns (nvram_status, nvram_config) held' →
  ok nvram_status = false →
  ∃ first rest,
    genSIPConfig host held = Returns (first :: rest) held'
    ∧ first = sip_row (active_config get)
    ∧ length rest = 8%nat
    ∧ Forall (λ row : Row, row !! "enabled_nvram" = first !! "enabled_nvram") rest.
Proof.
  intros (record & Hone & Hsupported) Hbuild Hget Hcheck Hread Hfail.
  destruct (rows_bound _ _ _ _ _ _ _ Hbuild Hget Hcheck Hread) as (rest & Hrows & Hrest).
  exists (sip_row (active_config get)), rest.
  split; [by rewrite (gate_supported _ _ _ Hone Hsupported)|]. split; [done|]. split.
  - apply Forall2_length in Hrest. by rewrite catalogue_order in Hrest.
  - eapply Forall2_Forall_r; [|exact Hrest].
    intros kv row (_ & _ & Hnvram). by rewrite Hnvram, Hfail.
Qed.

(** C3 on OS X 10.11 with SIP enabled and an options node that cannot be
    opened: the reader fails, the eight per-flag rows are emitted, and each
    of them has [enabled_nvram = 1], left over from the aggregate row the
    loop reuses; the claim has the field absent. *)
Theorem failed_read_leaves_stale_nvram :
  reader_fails (iokit el_capitan_no_node) 0 []
  ∧ ∃ first rest,
      genSIPConfig el_capitan_no_node [] = Returns (first :: rest) []
      ∧ length rest = 8%nat
      ∧ Forall (λ row : Row, row !! "enabled_nvram" = Some "1") rest.
Proof.
  assert (genCsrConfigFromNvram (iokit el_capitan_no_node) 0 []
          = Returns (mkStatus 1 "Could not open IOKit DeviceTree", 0) []) as Hread
    by (by apply reader_node_unavailable).
  split; [by eexists _, _, _|].
  destruct (failed_read_carries_aggregate el_capitan_no_node [] [] _ _ _ _
              (ex_intro _ _ (conj eq_refl supported_10_11)) eq_refl eq_refl eq_refl
              Hread eq_refl)
    as (first & rest & Hrun & -> & Hlen & Hrest).
  exists (sip_row (active_config (λ _, (0, 0)))), rest.
  split; [exact Hrun|]. split; [exact Hlen|].
  eapply Forall_impl; [exact Hrest|]. intros row ->. reflexivity.
Qed.

(** ** Further properties of the catalogue, the extraction and the rows *)

(** X1: the catalogue has eight entries with distinct names; every bit is
    a single bit of a 32-bit value, the bits are pairwise distinct, and
    [valid_allowed_flags] is their OR, 255. *)
Theorem catalogue_single_bits :
  length kRootlessConfigFlags = 8%nat
  ∧ NoDup kRootlessConfigFlags.*1
  ∧ NoDup kRootlessConfigFlags.*2
  ∧ Forall (λ kv : string * uint32_t, ∃ i, 0 ≤ i < 32 ∧ kv.2 = 2 ^ i)
      kRootlessConfigFlags
  ∧ valid_allowed_flags = foldr Z.lor 0 kRootlessConfigFlags.*2
  ∧ valid_allowed_flags = 255.
Proof.
  rewrite valid_allowed_flags_value, catalogue_order.
  split; [reflexivity|].
  split; [compute_done|].
  split; [compute_done|].
  split; [|split; reflexivity].
  repeat constructor; simpl;
    [ exists 4 | exists 7 | exists 3 | exists 2 | exists 5 | exists 1 | exists 6 | exists 0 ];
    split; (lia || reflexivity).
Qed.

(** X2: a [csr-active-config] of at most four bytes is read whole: the
    status is "ok", the value is the bytes taken least significant first
    with the missing high bytes zero, it fits 32 bits, and the call leaves
    the ledger as it found it. *)
Theorem short_buffer_extraction (io : IOKit) (config : uint32_t) (held : ledger)
    (d : gmap string CFType) (bytes : list Byte.byte) :
  chosen_entry io ≠ MACH_PORT_NULL →
  fetched_properties io = (KERN_SUCCESS, Some d) →
  d !! "csr-active-config" = Some (CFData bytes) →
  (length bytes ≤ 4)%nat →
  genCsrConfigFromNvram io config held
  = Returns (mkStatus 0 "ok", little_endian_uint32 bytes) held
  ∧ 0 ≤ little_endian_uint32 bytes < 2 ^ 32
  ∧ ∀ i, (length bytes ≤ i)%nat → byte_at bytes i = 0.
Proof.
  intros Hnode Hfetch Hvalue Hlen.
  split; [by apply (reader_bytes_fit _ _ _ d)|]. split.
  - unfold little_endian_uint32.
    pose proof (byte_at_range bytes 0). pose proof (byte_at_range bytes 1).
    pose proof (byte_at_range bytes 2). pose proof (byte_at_range bytes 3).
    lia.
  - intros i Hi. unfold byte_at. by rewrite lookup_ge_None_2.
Qed.

Lemma short_buffer_extraction_witness :
  genCsrConfigFromNvram (registry 7 KERN_SUCCESS (Some (nvram [Byte.x10; Byte.x01]))) 0 []
  = Returns (mkStatus 0 "ok", little_endian_uint32 [Byte.x10; Byte.x01]) []
  ∧ 0 ≤ little_endian_uint32 [Byte.x10; Byte.x01] < 2 ^ 32
  ∧ ∀ i, (length [Byte.x10; Byte.x01] ≤ i)%nat → byte_at [Byte.x10; Byte.x01] i = 0.
Proof.
  apply (short_buffer_extraction (registry 7 KERN_SUCCESS (Some (nvram [Byte.x10; Byte.x01])))
           0 [] (nvram [Byte.x10; Byte.x01]) [Byte.x10; Byte.x01]).
  - discriminate.
  - reflexivity.
  - reflexivity.
  - simpl. lia.
Defined.

Example two_bytes_little_endian : little_endian_uint32 [Byte.x10; Byte.x01] = 272.
Proof. reflexivity. Qed.

(** X3: when the gate passes, the entry points are bound and the reader
    succeeds with a persisted configuration, the per-flag observations
    follow the catalogue in the order of its keys; [enabled] is 1 exactly
    when [csr_check] returns 0 for the flag's bit, and [enabled_nvram] is 1
    exactly when the bit is set in the persisted configuration. *)
Theorem per_flag_observations (host : Host) (held held' : ledger)
    (get : csr_config_t → Z * Z) (check : csr_config_t → Z)
    (nvram_status : Status) (nvram_config : uint32_t) :
  gate_passes host →
  DARWIN_10_9 host = false →
  csr_get_active_config host = Some get →
  csr_check host = Some check →
  genCsrConfigFromNvram (iokit host) 0 held = Returns (nvram_status, nvram_config) held' →
  ok nvram_status = true →
  ∃ first rest,
    genSIPConfig host held = Returns (first :: rest) held'
    ∧ Forall2
        (λ (kv : string * uint32_t) (row : Row),
           row !! "config_flag" = Some kv.1
           ∧ row !! "enabled" = Some (if check kv.2 =? 0 then "1" else "0")
           ∧ row !! "enabled_nvram"
             = Some (if Z.land nvram_config kv.2 =? 0 then "0" else "1"))
        kRootlessConfigFlags rest.
Proof.
  intros (record & Hone & Hsupported) Hbuild Hget Hcheck Hread Hok.
  destruct (rows_bound _ _ _ _ _ _ _ Hbuild Hget Hcheck Hread) as (rest & Hrows & Hrest).
  exists (sip_row (active_config get)), rest.
  split; [by rewrite (gate_supported _ _ _ Hone Hsupported)|].
  eapply Forall2_impl; [exact Hrest|].
  intros kv row (Hname & Hlive & Hnvram). by rewrite Hok in Hnvram.
Qed.

Lemma per_flag_observations_witness :
  gate_passes apple_internal_pending
  ∧ ∃ first rest,
      genSIPConfig apple_internal_pending [] = Returns (first :: rest) []
      ∧ Forall2
          (λ (kv : string * uint32_t) (row : Row),
             row !! "config_flag" = Some kv.1
             ∧ row !! "enabled" = Some (if (if Z.land 0 kv.2 =? 0 then 1 else 0) =? 0
                                        then "1" else "0")
             ∧ row !! "enabled_nvram" = Some (if Z.land 16 kv.2 =? 0 then "0" else "1"))
          kRootlessConfigFlags rest.
Proof.
  assert (gate_passes apple_internal_pending) as Hgate
    by (exists (version_row "10" "11"); split; [reflexivity | apply supported_10_11]).
  split; [exact Hgate|].
  apply (per_flag_observations apple_internal_pending [] [] (λ _, (0, 0))
           (λ mask, if Z.land 0 mask =? 0 then 1 else 0) (mkStatus 0 "ok") 16
           Hgate eq_refl eq_refl eq_refl).
  - vm_compute. reflexivity.
  - reflexivity.
Defined.

(** ** Every way the call can end *)

Lemma gate_record_count (host : Host) (held : ledger) :
  length (selectAllFrom host "os_version") ≠ 1%nat →
  genSIPConfig host held = Returns [] held.
Proof.
  intros Hcount. unfold genSIPConfig.
  by apply Nat.eqb_neq in Hcount as ->.
Qed.

Lemma gate_exception_throws (host : Host) (held : ledger) (record : Row)
    (e : exception) :
  selectAllFrom host "os_version" = [record] →
  gate_exception record e →
  genSIPConfig host held = Throws e held.
Proof.
  intros Hone [[Hmajor ->] | [Hmajor [[Hminor ->] | (minor & Hminor & Hparse)]]].
  - run_gate. rewrite Hone. simpl. by rewrite Hmajor.
  - run_gate. rewrite Hone. simpl. rewrite Hmajor. simpl. by rewrite Hminor.
  - by eapply gate_throws.
Qed.

(** With one record the gate throws, denies or lets the call through. *)
Lemma gate_one_record (host : Host) (held : ledger) (record : Row) :
  selectAllFrom host "os_version" = [record] →
  (∃ e, gate_exception record e ∧ genSIPConfig host held = Throws e held)
  ∨ (too_old record ∧ genSIPConfig host held = Returns [] held)
  ∨ (supported record ∧ genSIPConfig host held = sip_config_rows host held).
Proof.
  intros Hone.
  destruct (record !! "major") as [major|] eqn:Hmajor.
  2: { left. exists (out_of_range "map::at").
       assert (gate_exception record (out_of_range "map::at")) as He by (by left).
       split; [exact He | by apply (gate_exception_throws _ _ record)]. }
  destruct (decide (major = "10")) as [->|Hne].
  2: { right; right.
       assert (supported record) as Hs by (exists major; split; [done | by left]).
       split; [exact Hs | by apply (gate_supported _ _ record)]. }
  destruct (record !! "minor") as [minor|] eqn:Hminor.
  2: { left. exists (out_of_range "map::at").
       assert (gate_exception record (out_of_range "map::at")) as He
         by (right; split; [done | by left]).
       split; [exact He | by apply (gate_exception_throws _ _ record)]. }
  destruct (stoi_value minor) as [e|n] eqn:Hparse.
  { left. exists e.
    assert (gate_exception record e) as He
      by (right; split; [done | right; by exists minor]).
    split; [exact He | by apply (gate_exception_throws _ _ record)]. }
  destruct (Z.lt_ge_cases n 11) as [Hlt|Hge].
  - right; left.
    assert (too_old record) as Hold by (split; [done | by exists minor, n]).
    split; [exact Hold | by apply (gate_too_old _ _ record)].
  - right; right.
    assert (supported record) as Hs
      by (exists "10"; split; [done | right; by exists minor, n]).
    split; [exact Hs | by apply (gate_supported _ _ record)].
Qed.

(** A record is not both below 10.11 and let through. *)
Lemma too_old_not_supported (record : Row) : too_old record → ¬ supported record.
Proof.
  intros (Hmajor & minor & n & Hminor & Hparse & Hlt)
    (major & Hmajor' & [Hne | (minor' & n' & Hminor' & Hparse' & Hge)]).
  - congruence.
  - assert (n' = n) by congruence. lia.
Qed.

(** Behind the gate the call returns nothing, returns the aggregate row
    and one row per flag, or overflows in the reader. *)
Lemma rows_cases (host : Host) (held : ledger) :
  ((DARWIN_10_9 host = true ∨ csr_get_active_config host = None
    ∨ csr_check host = None)
   ∧ sip_config_rows host held = Returns [] held)
  ∨ (∃ get check,
       DARWIN_10_9 host = false
       ∧ csr_get_active_config host = Some get
       ∧ csr_check host = Some check
       ∧ ((∃ nvram_status nvram_config held' rest,
             genCsrConfigFromNvram (iokit host) 0 held
             = Returns (nvram_status, nvram_config) held'
             ∧ sip_config_rows host held
               = Returns (sip_row (active_config get) :: rest) held'
             ∧ Forall2 (flag_observation check nvram_status nvram_config
                          (sip_row (active_config get) !! "enabled_nvram"))
                 kRootlessConfigFlags rest)
          ∨ (genCsrConfigFromNvram (iokit host) 0 held = Undefined
             ∧ sip_config_rows host held = Undefined))).
Proof.
  destruct (DARWIN_10_9 host) eqn:Hbuild.
  { left. split; [by left|]. run_rows. by rewrite Hbuild. }
  destruct (csr_get_active_config host) as [get|] eqn:Hget.
  2: { left. split; [by right; left | apply rows_unbound; by left]. }
  destruct (csr_check host) as [check|] eqn:Hcheck.
  2: { left. split; [by right; right | apply rows_unbound; by right]. }
  right. exists get, check. do 3 (split; [done|]).
  destruct (genCsrConfigFromNvram (iokit host) 0 held)
    as [[nvram_status nvram_config] held'|e held'|] eqn:Hread.
  - left.
    destruct (rows_bound _ _ _ _ _ _ _ Hbuild Hget Hcheck Hread) as (rest & Hrows & Hrest).
    by exists nvram_status, nvram_config, held', rest.
  - by apply reader_never_throws in Hread.
  - right. split; [done|]. run_rows. by rewrite Hbuild, Hget, Hcheck, Hread.
Qed.

(** X4: [genSIPConfig] returns no observation exactly when the OS-version
    table does not have exactly one record, or its one record is an OS X
    10.x below 10.11, or the record passes the gate and the file was built
    with [DARWIN_10_9] or one of the two entry points is not bound; in each
    of these cases no reference has been acquired. *)
Theorem no_observations_iff (host : Host) (held held' : ledger) :
  genSIPConfig host held = Returns [] held' ↔
  held' = held
  ∧ (length (selectAllFrom host "os_version") ≠ 1%nat
     ∨ ∃ record, selectAllFrom host "os_version" = [record]
         ∧ (too_old record
            ∨ (supported record
               ∧ (DARWIN_10_9 host = true ∨ csr_get_active_config host = None
                  ∨ csr_check host = None)))).
Proof.
  split.
  - intros Hrun.
    destruct (decide (length (selectAllFrom host "os_version") = 1%nat)) as [Hcount|Hcount].
    2: { rewrite (gate_record_count _ _ Hcount) in Hrun.
         injection Hrun as <-. split; [done | by left]. }
    destruct (selectAllFrom host "os_version") as [|record [|]] eqn:Hone;
      try discriminate Hcount.
    destruct (gate_one_record host held record Hone)
      as [(e & _ & Hthrow) | [[Hold Hdeny] | [Hs Hlive]]].
    + congruence.
    + rewrite Hdeny in Hrun. injection Hrun as <-.
      split; [done|]. right. exists record. split; [done | by left].
    + rewrite Hlive in Hrun.
      destruct (rows_cases host held)
        as [[Hgap Hnone] | (get & check & _ & _ & _ &
              [(st & cfg & held'' & rest & _ & Hrows & _) | [_ Hub]])].
      * rewrite Hnone in Hrun. injection Hrun as <-.
        split; [done|]. right. exists record. split; [done | by right].
      * rewrite Hrows in Hrun. discriminate Hrun.
      * congruence.
  - intros [-> [Hcount | (record & Hone & [Hold | [Hs Hgap]])]].
    + by apply gate_record_count.
    + by apply (gate_too_old _ _ record).
    + rewrite (gate_supported _ _ record Hone Hs).
      destruct Hgap as [Hbuild | Hnull]; [|by apply rows_unbound].
      run_rows. by rewrite Hbuild.
Qed.

(** X5: [genSIPConfig] throws exactly when there is one OS-version record
    and the record has no [major] key, or its major version is "10" and it
    has no [minor] key ([std::out_of_range] from [std::map::at]), or its
    major version is "10" and [std::stoi] throws on the minor version; the
    exception leaves before any reference is acquired. A record with
    another major version never makes the call throw, whatever its minor
    field. *)
Theorem throws_iff (host : Host) (held held' : ledger) (e : exception) :
  genSIPConfig host held = Throws e held' ↔
  held' = held
  ∧ ∃ record, selectAllFrom host "os_version" = [record] ∧ gate_exception record e.
Proof.
  split.
  - intros Hrun.
    destruct (decide (length (selectAllFrom host "os_version") = 1%nat)) as [Hcount|Hcount].
    2: { rewrite (gate_record_count _ _ Hcount) in Hrun. discriminate Hrun. }
    destruct (selectAllFrom host "os_version") as [|record [|]] eqn:Hone;
      try discriminate Hcount.
    destruct (gate_one_record host held record Hone)
      as [(e' & He & Hthrow) | [[_ Hdeny] | [_ Hlive]]].
    + rewrite Hthrow in Hrun. injection Hrun as -> <-.
      split; [done | by exists record].
    + congruence.
    + rewrite Hlive in Hrun. by apply rows_never_throw in Hrun.
  - intros [-> (record & Hone & He)]. by apply (gate_exception_throws _ _ record).
Qed.

(** ** Every way through the persisted reader *)

Lemma reader_follows_path (io : IOKit) (config : uint32_t) (held : ledger) :
  reader_path io config held (genCsrConfigFromNvram io config held).
Proof.
  destruct (decide (chosen_entry io = MACH_PORT_NULL)) as [Hnode|Hnode].
  { rewrite (reader_node_unavailable _ _ _ Hnode). by constructor. }
  destruct (fetched_properties io) as [kr properties] eqn:Hfetch.
  destruct (decide (kr = KERN_SUCCESS)) as [->|Hkr].
  2: { rewrite (reader_properties_unavailable _ _ _ _ _ Hnode Hfetch Hkr).
       by eapply path_no_properties. }
  destruct properties as [d|].
  2: { rewrite (reader_properties_null _ _ _ Hnode Hfetch). by constructor. }
  destruct (d !! "csr-active-config") as [value|] eqn:Hvalue.
  2: { rewrite (reader_property_absent _ _ _ _ Hnode Hfetch Hvalue).
       by eapply path_absent. }
  destruct (decide (CFGetTypeID value = CFDataGetTypeID)) as [Hty|Hty].
  2: { rewrite (reader_unexpected_type _ _ _ _ _ Hnode Hfetch Hvalue Hty).
       by eapply path_unexpected_type. }
  destruct value as [bytes| | |]; try discriminate Hty.
  destruct (decide (length bytes ≤ 4)%nat) as [Hlen|Hlen].
  - rewrite (reader_bytes_fit _ _ _ _ _ Hnode Hfetch Hvalue Hlen).
    by eapply path_bytes.
  - rewrite (reader_bytes_overflow _ _ _ _ _ Hnode Hfetch Hvalue) by lia.
    eapply path_overflow; [done..|lia].
Qed.

Lemma reader_overflow_iff (io : IOKit) (config : uint32_t) (held : ledger) :
  genCsrConfigFromNvram io config held = Undefined ↔ long_property io.
Proof.
  split.
  - intros Hrun. pose proof (reader_follows_path io config held) as Hpath.
    rewrite Hrun in Hpath. inversion Hpath as [| | | | | |d bytes Hnode Hfetch Hvalue Hlen].
    split; [done|]. by exists d, bytes.
  - intros (Hnode & d & bytes & Hfetch & Hvalue & Hlen).
    by apply (reader_bytes_overflow _ _ _ d bytes).
Qed.

(** X6: [genCsrConfigFromNvram] returns a status, failing or not, exactly
    when it is not the case that the options node opens, its properties are
    fetched and [csr-active-config] is a [CFData] of more than four bytes;
    it has no defined result, the copy into the four-byte array having
    overflowed, exactly in that case; and it never throws. *)
Theorem reader_returns_iff (io : IOKit) (config : uint32_t) (held : ledger) :
  ((∃ status config' held',
      genCsrConfigFromNvram io config held = Returns (status, config') held')
   ↔ ¬ long_property io)
  ∧ (genCsrConfigFromNvram io config held = Undefined ↔ long_property io)
  ∧ (∀ e held', genCsrConfigFromNvram io config held ≠ Throws e held').
Proof.
  split; [|split; [apply reader_overflow_iff | intros e held'; apply reader_never_throws]].
  rewrite <- (reader_overflow_iff io config held).
  pose proof (reader_never_throws io config held) as Hthrow.
  destruct (genCsrConfigFromNvram io config held)
    as [[status config'] held'|e held'|].
  - split; [done | intros _; eauto].
  - by destruct (Hthrow held' e).
  - split; [by intros (? & ? & ? & [=]) | done].
Qed.

(** X7: [genSIPConfig] has no defined result exactly when the gate passes,
    the file is built without [DARWIN_10_9], both entry points are bound
    and the persisted [csr-active-config] is a [CFData] of more than four
    bytes; on every other machine the call returns rows or throws. *)
Theorem table_undefined_iff (host : Host) (held : ledger) :
  genSIPConfig host held = Undefined ↔
  gate_passes host
  ∧ DARWIN_10_9 host = false
  ∧ is_Some (csr_get_active_config host)
  ∧ is_Some (csr_check host)
  ∧ long_property (iokit host).
Proof.
  split.
  - intros Hrun.
    destruct (decide (length (selectAllFrom host "os_version") = 1%nat)) as [Hcount|Hcount].
    2: { rewrite (gate_record_count _ _ Hcount) in Hrun. discriminate Hrun. }
    destruct (selectAllFrom host "os_version") as [|record [|]] eqn:Hone;
      try discriminate Hcount.
    destruct (gate_one_record host held record Hone)
      as [(e & _ & Hthrow) | [[_ Hdeny] | [Hs Hlive]]]; [congruence..|].
    rewrite Hlive in Hrun.
    destruct (rows_cases host held)
      as [[_ Hnone] | (get & check & Hbuild & Hget & Hcheck &
            [(st & cfg & held' & rest & _ & Hrows & _) | [Hub _]])];
      [congruence..|].
    split; [by exists record|]. split; [done|].
    split; [by exists get|]. split; [by exists check|].
    by apply (reader_overflow_iff _ 0 held).
  - intros ((record & Hone & Hs) & Hbuild & [get Hget] & [check Hcheck] & Hlong).
    rewrite (gate_supported _ _ record Hone Hs).
    apply (reader_overflow_iff _ 0 held) in Hlong.
    run_rows. by rewrite Hbuild, Hget, Hcheck, Hlong.
Qed.

(** X8: whenever [genCsrConfigFromNvram] returns, the registry entry it
    opened has been released, and the ledger is either as the call found
    it or longer by the one dictionary the call created: the dictionary is
    released exactly on the "ok" return and stays held on every other
    return that comes after a dictionary was created. *)
Theorem reader_ledger (io : IOKit) (config config' : uint32_t)
    (held held' : ledger) (status : Status) :
  genCsrConfigFromNvram io config held = Returns (status, config') held' →
  (held' = held
   ∧ (node_unavailable io ∨ properties_null io ∨ getMessage status = "ok"))
  ∨ (∃ d, ¬ node_unavailable io
          ∧ (fetched_properties io).2 = Some d
          ∧ getMessage status ≠ "ok"
          ∧ held' = cf_object d :: held).
Proof.
  intros Hrun. pose proof (reader_follows_path io config held) as Hpath.
  rewrite Hrun in Hpath. unfold node_unavailable, properties_null.
  inversion Hpath as
    [Hnode | kr properties Hnode Hfetch Hkr | Hnode Hfetch
    | d value Hnode Hfetch Hvalue Hty | d Hnode Hfetch Hvalue
    | d bytes Hnode Hfetch Hvalue Hlen | ]; subst.
  - left. split; [done | by left].
  - rewrite Hfetch. destruct properties as [d|].
    + right. exists d. by repeat split.
    + left. split; [done | by right; left].
  - left. rewrite Hfetch. split; [done | by right; left].
  - right. exists d. rewrite Hfetch. by repeat split.
  - right. exists d. rewrite Hfetch. by repeat split.
  - left. split; [done | by right; right].
Qed.

Lemma reader_ledger_witness :
  let io := registry 7 KERN_SUCCESS (Some boot_args_only) in
  genCsrConfigFromNvram io 0 []
  = Returns (mkStatus 0 "csr-active-config key not found", 0) [cf_object boot_args_only]
  ∧ (([cf_object boot_args_only] = []
      ∧ (node_unavailable io ∨ properties_null io
         ∨ getMessage (mkStatus 0 "csr-active-config key not found") = "ok"))
     ∨ (∃ d, ¬ node_unavailable io
             ∧ (fetched_properties io).2 = Some d
             ∧ getMessage (mkStatus 0 "csr-active-config key not found") ≠ "ok"
             ∧ [cf_object boot_args_only] = [cf_object d])).
Proof.
  assert (genCsrConfigFromNvram (registry 7 KERN_SUCCESS (Some boot_args_only)) 0 []
          = Returns (mkStatus 0 "csr-active-config key not found", 0)
              [cf_object boot_args_only]) as Hrun by (vm_compute; reflexivity).
  split; [exact Hrun|].
  exact (reader_ledger _ 0 0 [] _ _ Hrun).
Defined.

(** X9: the value [config] refers to is written on the "ok" return only,
    with the property's bytes (at most four) read least significant first;
    on every other return, failing or "key not found", it is what the
    caller passed in. *)
Theorem reader_config_frame (io : IOKit) (config config' : uint32_t)
    (held held' : ledger) (status : Status) :
  genCsrConfigFromNvram io config held = Returns (status, config') held' →
  (getMessage status ≠ "ok" ∧ config' = config)
  ∨ (status = mkStatus 0 "ok"
     ∧ ∃ bytes, csr_property io = Some (CFData bytes)
                ∧ (length bytes ≤ 4)%nat
                ∧ config' = little_endian_uint32 bytes).
Proof.
  intros Hrun. pose proof (reader_follows_path io config held) as Hpath.
  rewrite Hrun in Hpath.
  inversion Hpath as
    [Hnode | kr properties Hnode Hfetch Hkr | Hnode Hfetch
    | d value Hnode Hfetch Hvalue Hty | d Hnode Hfetch Hvalue
    | d bytes Hnode Hfetch Hvalue Hlen | ]; subst;
    try (left; by split).
  right. split; [done|]. exists bytes. unfold csr_property. rewrite Hfetch. by simpl.
Qed.

Lemma reader_config_frame_witness :
  let io := registry 7 KERN_SUCCESS (Some (nvram [Byte.x10; Byte.x01])) in
  genCsrConfigFromNvram io 77 []
  = Returns (mkStatus 0 "ok", little_endian_uint32 [Byte.x10; Byte.x01]) []
  ∧ ((getMessage (mkStatus 0 "ok") ≠ "ok"
      ∧ little_endian_uint32 [Byte.x10; Byte.x01] = 77)
     ∨ (mkStatus 0 "ok" = mkStatus 0 "ok"
        ∧ ∃ bytes, csr_property io = Some (CFData bytes)
                   ∧ (length bytes ≤ 4)%nat
                   ∧ little_endian_uint32 [Byte.x10; Byte.x01]
                     = little_endian_uint32 bytes)).
Proof.
  assert (genCsrConfigFromNvram
            (registry 7 KERN_SUCCESS (Some (nvram [Byte.x10; Byte.x01]))) 77 []
          = Returns (mkStatus 0 "ok", little_endian_uint32 [Byte.x10; Byte.x01]) [])
    as Hrun by (vm_compute; reflexivity).
  split; [exact Hrun|].
  exact (reader_config_frame _ 77 _ [] [] _ Hrun).
Defined.

(** ** The aggregate row by the size of the active configuration *)

Lemma lor_valid_iff (config : Z) :
  0 ≤ config →
  Z.lor config valid_allowed_flags = valid_allowed_flags ↔ config ≤ 255.
Proof.
  intros Hpos. rewrite valid_allowed_flags_value.
  change 255 with (Z.ones 8) at 1 2. split.
  - intros Hlor. destruct (Z.le_gt_cases config 255) as [|Hbig]; [done|].
    assert (Z.testbit (Z.ones 8) (Z.log2 config) = true) as Hbit.
    { rewrite <- Hlor, Z.lor_spec, Z.bit_log2 by lia. done. }
    rewrite Z.ones_spec_high in Hbit; [done|].
    split; [lia|]. apply Z.log2_le_pow2; lia.
  - intros Hsmall. apply Z.bits_inj'. intros n Hn. rewrite Z.lor_spec.
    destruct (Z.lt_ge_cases n 8).
    + rewrite (Z.ones_spec_low 8 n) by lia. apply orb_true_r.
    + rewrite (Z.ones_spec_high 8 n) by lia. rewrite orb_false_r.
      destruct (Z.eq_dec config 0) as [->|]; [apply Z.bits_0|].
      apply Z.bits_above_log2; [lia|].
      assert (Z.log2 config < 8) by (apply Z.log2_lt_pow2; lia). lia.
Qed.

Lemma active_config_range (get : csr_config_t → Z * Z) :
  0 ≤ active_config get < 2 ^ 32.
Proof. unfold active_config, to_uint32. apply Z.mod_pos_bound. lia. Qed.

Lemma sip_row_by_range (config : csr_config_t) :
  0 ≤ config →
  (config = 0
   ∧ sip_row config
     = <["enabled_nvram" := "1"]> (<["enabled" := "1"]> {["config_flag" := "sip"]}))
  ∨ (1 ≤ config ≤ 255
     ∧ sip_row config
       = <["enabled_nvram" := "0"]> (<["enabled" := "0"]> {["config_flag" := "sip"]}))
  ∨ (256 ≤ config ∧ sip_row config = {["config_flag" := "sip"]}).
Proof.
  intros Hpos. pose proof (lor_valid_iff config Hpos) as Hvalid.
  destruct (Z.eq_dec config 0) as [->|Hne]; [left; split; [done | apply sip_row_enabled]|].
  destruct (Z.le_gt_cases config 255) as [Hsmall|Hbig].
  - right; left. split; [lia|]. apply sip_row_disabled; [done | by apply Hvalid].
  - right; right. split; [lia|]. apply sip_row_unknown; [done|].
    intros Hlor. apply Hvalid in Hlor. lia.
Qed.

(** What a call that emits rows went through. *)
Lemma emitted_rows (host : Host) (held held' : ledger) (rows : QueryData) :
  genSIPConfig host held = Returns rows held' →
  rows ≠ [] →
  ∃ get check nvram_status nvram_config rest,
    csr_get_active_config host = Some get
    ∧ csr_check host = Some check
    ∧ genCsrConfigFromNvram (iokit host) 0 held
      = Returns (nvram_status, nvram_config) held'
    ∧ rows = sip_row (active_config get) :: rest
    ∧ Forall2 (flag_observation check nvram_status nvram_config
                 (sip_row (active_config get) !! "enabled_nvram"))
        kRootlessConfigFlags rest.
Proof.
  intros Hrun Hrows.
  destruct (gate_inversion _ _ _ _ Hrun Hrows) as [_ Hlive].
  destruct (rows_inversion _ _ _ _ Hlive Hrows)
    as (get & check & nvram_status & nvram_config & Hbuild & Hget & Hcheck & Hread).
  destruct (rows_bound _ _ _ _ _ _ _ Hbuild Hget Hcheck Hread) as (rest & Hrest & Hobs).
  exists get, check, nvram_status, nvram_config, rest.
  do 3 (split; [done|]). split; [congruence | done].
Qed.

(** X10: the aggregate row is decided by the active configuration alone,
    as a number: 0 gives [enabled = enabled_nvram = 1]; 1 to 255 (bits of
    the catalogue only) gives [enabled = enabled_nvram = 0]; 256 and above
    (some bit outside the catalogue) gives a row with [config_flag] and
    nothing else. The OS version, [csr_check] and the registry have no part
    in it. *)
Theorem aggregate_by_range (host : Host) (held held' : ledger)
    (first : Row) (rest : QueryData) (get : csr_config_t → Z * Z) :
  genSIPConfig host held = Returns (first :: rest) held' →
  csr_get_active_config host = Some get →
  (active_config get = 0
   ∧ first = <["enabled_nvram" := "1"]> (<["enabled" := "1"]> {["config_flag" := "sip"]}))
  ∨ (1 ≤ active_config get ≤ 255
     ∧ first = <["enabled_nvram" := "0"]> (<["enabled" := "0"]> {["config_flag" := "sip"]}))
  ∨ (256 ≤ active_config get < 2 ^ 32 ∧ first = {["config_flag" := "sip"]}).
Proof.
  intros Hrun Hget.
  destruct (emitted_rows _ _ _ _ Hrun) as
    (get' & check & st & cfg & rest' & Hget' & _ & _ & Hrows & _); [done|].
  assert (get' = get) as -> by congruence. injection Hrows as -> _.
  pose proof (active_config_range get) as Hrange.
  destruct (sip_row_by_range (active_config get)) as [[? ?]|[[? ?]|[? ?]]];
    [lia | by left | by right; left | right; right; split; [lia | done]].
Qed.

Lemma aggregate_by_range_witness :
  ∃ first rest held',
    genSIPConfig two_bits_lifted [] = Returns (first :: rest) held'
    ∧ csr_get_active_config two_bits_lifted = Some (λ _, (0, 3))
    ∧ ((active_config (λ _, (0, 3)) = 0
        ∧ first = <["enabled_nvram" := "1"]> (<["enabled" := "1"]> {["config_flag" := "sip"]}))
       ∨ (1 ≤ active_config (λ _, (0, 3)) ≤ 255
          ∧ first = <["enabled_nvram" := "0"]> (<["enabled" := "0"]> {["config_flag" := "sip"]}))
       ∨ (256 ≤ active_config (λ _, (0, 3)) < 2 ^ 32
          ∧ first = {["config_flag" := "sip"]})).
Proof.
  destruct (machine_runs "10" "11" 3
              (registry 7 KERN_SUCCESS (Some (nvram [Byte.x20; Byte.xff])))
              (mkStatus 0 "ok") 65312 [] supported_10_11)
    as (first & rest & Hrun & _); [vm_compute; reflexivity|].
  exists first, rest, []. split; [exact Hrun|]. split; [reflexivity|].
  exact (aggregate_by_range two_bits_lifted [] [] first rest _ Hrun eq_refl).
Defined.

(** X11: when the persisted reader fails, every row of the result, the
    aggregate one and the eight per-flag ones, has the same [enabled_nvram]
    field, the one the active configuration gave the aggregate row: 1 for
    the active configuration 0, 0 for 1 to 255, and no field from 256 on.
    The per-flag rows are copies of the one row the loop keeps updating,
    and the loop leaves the field alone when the status is not ok. *)
Theorem failed_read_nvram_by_range (host : Host) (held held' : ledger)
    (rows : QueryData) (get : csr_config_t → Z * Z) :
  genSIPConfig host held = Returns rows held' →
  rows ≠ [] →
  csr_get_active_config host = Some get →
  reader_fails (iokit host) 0 held →
  Forall (λ row : Row,
            row !! "enabled_nvram"
            = if active_config get =? 0 then Some "1"
              else if active_config get <=? 255 then Some "0"
              else None) rows.
Proof.
  intros Hrun Hrows Hget (st' & cfg' & held'' & Hread' & Hfail).
  destruct (emitted_rows _ _ _ _ Hrun Hrows) as
    (get' & check & st & cfg & rest & Hget' & _ & Hread & -> & Hobs).
  assert (get' = get) as -> by congruence.
  assert (st = st') as -> by congruence.
  pose proof (active_config_range get) as Hrange.
  assert (sip_row (active_config get) !! "enabled_nvram"
          = if active_config get =? 0 then Some "1"
            else if active_config get <=? 255 then Some "0" else None) as Hfirst.
  { destruct (sip_row_by_range (active_config get)) as [[Hc ->]|[[Hc ->]|[Hc ->]]];
      [lia | | |].
    - rewrite Hc. by simplify_map_eq.
    - replace (active_config get =? 0) with false by (symmetry; apply Z.eqb_neq; lia).
      replace (active_config get <=? 255) with true by (symmetry; apply Z.leb_le; lia).
      by simplify_map_eq.
    - replace (active_config get =? 0) with false by (symmetry; apply Z.eqb_neq; lia).
      replace (active_config get <=? 255) with false by (symmetry; apply Z.leb_gt; lia).
      by simplify_map_eq. }
  constructor; [exact Hfirst|].
  eapply Forall2_Forall_r; [|exact Hobs].
  intros kv row (_ & _ & Hnvram). by rewrite Hnvram, Hfail.
Qed.

Lemma failed_read_nvram_by_range_witness :
  ∃ rows held',
    genSIPConfig two_bits_no_properties [] = Returns rows held'
    ∧ rows ≠ []
    ∧ reader_fails (iokit two_bits_no_properties) 0 []
    ∧ Forall (λ row : Row,
                row !! "enabled_nvram"
                = if active_config (λ _, (0, 3)) =? 0 then Some "1"
                  else if active_config (λ _, (0, 3)) <=? 255 then Some "0"
                  else None) rows.
Proof.
  assert (genCsrConfigFromNvram (registry 7 5 None) 0 []
          = Returns (mkStatus 1 "Could not get IOKit options", 0) []) as Hread
    by (vm_compute; reflexivity).
  destruct (machine_runs "10" "11" 3 (registry 7 5 None) _ _ [] supported_10_11 Hread)
    as (first & rest & Hrun & _).
  assert (first :: rest ≠ []) as Hrows by discriminate.
  assert (reader_fails (iokit two_bits_no_properties) 0 []) as Hfail
    by (eexists _, _, _; split; [exact Hread | reflexivity]).
  exists (first :: rest), []. split; [exact Hrun|]. split; [exact Hrows|].
  split; [exact Hfail|].
  exact (failed_read_nvram_by_range two_bits_no_properties [] [] _ _ Hrun Hrows
           eq_refl Hfail).
Defined.

(** ** The persisted bytes, end to end, and the shape of the result *)

Lemma Forall2_impl_Forall_l {A B : Type} (Q : A → Prop) (R R' : A → B → Prop)
    (l : list A) (k : list B) :
  Forall Q l → (∀ a b, Q a → R a b → R' a b) → Forall2 R l k → Forall2 R' l k.
Proof.
  intros HQ Himpl HR. revert HQ.
  induction HR as [|a b l k Hab HR IH]; intros HQ; [constructor|].
  apply Forall_cons_1 in HQ as [Ha HQ]. constructor; eauto.
Qed.

Lemma catalogue_low_byte :
  Forall (λ kv : string * uint32_t, 0 ≤ kv.2 < 2 ^ 8) kRootlessConfigFlags.
Proof. rewrite catalogue_order. repeat constructor; simpl; lia. Qed.

(** Against a mask of the low byte only the first byte of the buffer
    counts. *)
Lemma land_low_byte (bytes : list Byte.byte) (mask : Z) :
  0 ≤ mask < 2 ^ 8 →
  Z.land (little_endian_uint32 bytes) mask = Z.land (byte_at bytes 0) mask.
Proof.
  intros Hmask.
  assert (Z.land (Z.ones 8) mask = mask) as Hlow
    by (rewrite Z.land_comm, Z.land_ones by lia; apply Z.mod_small; lia).
  rewrite <- Hlow at 1. rewrite Z.land_assoc, Z.land_ones by lia. f_equal.
  unfold little_endian_uint32.
  pose proof (byte_at_range bytes 0) as Hfirst.
  replace (byte_at bytes 0 + 2 ^ 8 * byte_at bytes 1 + 2 ^ 16 * byte_at bytes 2
           + 2 ^ 24 * byte_at bytes 3)
    with (byte_at bytes 0
          + (byte_at bytes 1 + 2 ^ 8 * byte_at bytes 2 + 2 ^ 16 * byte_at bytes 3) * 2 ^ 8)
    by lia.
  rewrite Z.mod_add by lia. apply Z.mod_small. lia.
Qed.

(** X12: when the gate passes, the entry points are bound and
    [csr-active-config] is a [CFData] of at most four bytes, the call
    returns with the ledger as it found it, and the [enabled_nvram] field
    of every per-flag row is read off the first byte of the property alone:
    1 exactly when the flag's bit is set in that byte (0 throughout for an
    empty buffer). The second to fourth bytes reach no flag of the
    catalogue. *)
Theorem persisted_first_byte (host : Host) (held : ledger)
    (d : gmap string CFType) (bytes : list Byte.byte) :
  gate_passes host →
  DARWIN_10_9 host = false →
  is_Some (csr_get_active_config host) →
  is_Some (csr_check host) →
  chosen_entry (iokit host) ≠ MACH_PORT_NULL →
  fetched_properties (iokit host) = (KERN_SUCCESS, Some d) →
  d !! "csr-active-config" = Some (CFData bytes) →
  (length bytes ≤ 4)%nat →
  ∃ first rest,
    genSIPConfig host held = Returns (first :: rest) held
    ∧ Forall2
        (λ (kv : string * uint32_t) (row : Row),
           row !! "config_flag" = Some kv.1
           ∧ row !! "enabled_nvram"
             = Some (if Z.land (byte_at bytes 0) kv.2 =? 0 then "0" else "1"))
        kRootlessConfigFlags rest.
Proof.
  intros (record & Hone & Hs) Hbuild [get Hget] [check Hcheck] Hnode Hfetch Hvalue Hlen.
  pose proof (reader_bytes_fit _ 0 held _ _ Hnode Hfetch Hvalue Hlen) as Hread.
  destruct (rows_bound _ _ _ _ _ _ _ Hbuild Hget Hcheck Hread) as (rest & Hrows & Hobs).
  exists (sip_row (active_config get)), rest.
  split; [by rewrite (gate_supported _ _ record Hone Hs)|].
  eapply Forall2_impl_Forall_l; [exact catalogue_low_byte | | exact Hobs].
  intros kv row Hbit (Hname & _ & Hnvram). split; [done|].
  rewrite Hnvram. simpl. by rewrite land_low_byte.
Qed.

Lemma persisted_first_byte_witness :
  gate_passes two_bits_lifted
  ∧ ∃ first rest,
      genSIPConfig two_bits_lifted [] = Returns (first :: rest) []
      ∧ Forall2
          (λ (kv : string * uint32_t) (row : Row),
             row !! "config_flag" = Some kv.1
             ∧ row !! "enabled_nvram"
               = Some (if Z.land (byte_at [Byte.x20; Byte.xff] 0) kv.2 =? 0
                       then "0" else "1"))
          kRootlessConfigFlags rest.
Proof.
  assert (gate_passes two_bits_lifted) as Hgate
    by (exists (version_row "10" "11"); split; [reflexivity | apply supported_10_11]).
  split; [exact Hgate|].
  apply (persisted_first_byte two_bits_lifted [] (nvram [Byte.x20; Byte.xff])
           [Byte.x20; Byte.xff] Hgate eq_refl
           (mk_is_Some _ _ eq_refl) (mk_is_Some _ _ eq_refl)).
  - discriminate.
  - reflexivity.
  - reflexivity.
  - simpl. lia.
Defined.

Lemma sip_row_columns (config : csr_config_t) : dom (sip_row config) ⊆ sip_columns.
Proof.
  unfold sip_row, sip_columns.
  destruct (config =? 0); [|destruct (Z.lor _ _ =? _)];
    rewrite ?dom_insert_L, dom_empty_L; set_solver.
Qed.

Lemma flag_loop_columns (check : csr_config_t → Z) (nvram_status : Status)
    (nvram_config : uint32_t) (flags : list (string * uint32_t)) :
  ∀ (r : Row) (results : QueryData),
    dom r ⊆ sip_columns →
    Forall (λ row : Row, dom row ⊆ sip_columns) results →
    Forall (λ row : Row, dom row ⊆ sip_columns)
      (fold_left (flag_row check nvram_status nvram_config) flags (r, results)).2.
Proof.
  induction flags as [|kv flags IH]; intros r results Hr Hresults; [done|].
  simpl fold_left.
  set (r' := if ok nvram_status then _ else _).
  assert (dom r' ⊆ sip_columns) as Hr'.
  { subst r'. unfold sip_columns in *.
    destruct (ok nvram_status); rewrite ?dom_insert_L; set_solver. }
  apply IH; [done|]. apply Forall_app. split; [done | by constructor].
Qed.

Lemma rows_columns (host : Host) (held : ledger) :
  match sip_config_rows host held with
  | Returns rows _ => Forall (λ row : Row, dom row ⊆ sip_columns) rows
  | _ => True
  end.
Proof.
  run_rows.
  destruct (DARWIN_10_9 host); [done|].
  destruct (csr_get_active_config host) as [get|]; [|done].
  destruct (csr_check host) as [check|]; [|done].
  destruct (genCsrConfigFromNvram (iokit host) 0 held)
    as [[nvram_status nvram_config] held'| |]; [|done..].
  apply flag_loop_columns; [apply sip_row_columns|].
  constructor; [apply sip_row_columns | constructor].
Qed.

(** X13: a call that returns rows returns none or nine. The first of the
    nine has [config_flag = sip]; the other eight carry the catalogue's
    names in the order of the keys, each with [enabled] 1 or 0 as
    [csr_check] returns 0 or not for the flag's bit, whatever the
    persisted reader's status; and no row has a column besides
    [config_flag], [enabled] and [enabled_nvram]. *)
Theorem rows_schema (host : Host) (held held' : ledger) (rows : QueryData) :
  genSIPConfig host held = Returns rows held' →
  rows = []
  ∨ ∃ check first rest,
      csr_check host = Some check
      ∧ rows = first :: rest
      ∧ first !! "config_flag" = Some "sip"
      ∧ Forall2
          (λ (kv : string * uint32_t) (row : Row),
             row !! "config_flag" = Some kv.1
             ∧ row !! "enabled" = Some (if check kv.2 =? 0 then "1" else "0"))
          [ ("allow_apple_internal", 16); ("allow_device_configuration", 128);
            ("allow_kernel_debugger", 8); ("allow_task_for_pid", 4);
            ("allow_unrestricted_dtrace", 32); ("allow_unrestricted_fs", 2);
            ("allow_unrestricted_nvram", 64); ("allow_untrusted_kexts", 1) ]
          rest
      ∧ Forall (λ row : Row, dom row ⊆ sip_columns) rows.
Proof.
  intros Hrun. destruct rows as [|first rest]; [by left|]. right.
  destruct (emitted_rows _ _ _ _ Hrun) as
    (get & check & st & cfg & rest' & _ & Hcheck & _ & Hrows & Hobs); [done|].
  injection Hrows as -> ->.
  destruct (gate_inversion _ _ _ _ Hrun) as [_ Hlive]; [done|].
  pose proof (rows_columns host held) as Hcolumns. rewrite Hlive in Hcolumns.
  exists check, (sip_row (active_config get)), rest'.
  split; [done|]. split; [done|]. split.
  { unfold sip_row. destruct (_ =? 0); [by simplify_map_eq|].
    destruct (Z.lor _ _ =? _); by simplify_map_eq. }
  split; [|done].
  rewrite <- catalogue_order.
  eapply Forall2_impl; [exact Hobs|]. by intros kv row (Hname & Hlive' & _).
Qed.

Lemma rows_schema_witness :
  ∃ rows held',
    genSIPConfig two_bits_lifted [] = Returns rows held'
    ∧ (rows = []
       ∨ ∃ check first rest,
           csr_check two_bits_lifted = Some check
           ∧ rows = first :: rest
           ∧ first !! "config_flag" = Some "sip"
           ∧ Forall2
               (λ (kv : string * uint32_t) (row : Row),
                  row !! "config_flag" = Some kv.1
                  ∧ row !! "enabled" = Some (if check kv.2 =? 0 then "1" else "0"))
               [ ("allow_apple_internal", 16); ("allow_device_configuration", 128);
                 ("allow_kernel_debugger", 8); ("allow_task_for_pid", 4);
                 ("allow_unrestricted_dtrace", 32); ("allow_unrestricted_fs", 2);
                 ("allow_unrestricted_nvram", 64); ("allow_untrusted_kexts", 1) ]
               rest
           ∧ Forall (λ row : Row, dom row ⊆ sip_columns) rows).
Proof.
  destruct (machine_runs "10" "11" 3
              (registry 7 KERN_SUCCESS (Some (nvram [Byte.x20; Byte.xff])))
              (mkStatus 0 "ok") 65312 [] supported_10_11)
    as (first & rest & Hrun & _); [vm_compute; reflexivity|].
  exists (first :: rest), []. split; [exact Hrun|].
  exact (rows_schema two_bits_lifted [] [] _ Hrun).
Defined.

(** ** Running the call again *)

(** What the reader adds to the ledger does not depend on the ledger. *)
Lemma reader_frame (io : IOKit) (config : uint32_t) (held held' : ledger)
    (result : Status * uint32_t) :
  genCsrConfigFromNvram io config held = Returns result held' →
  ∃ kept : ledger,
    held' = (kept ++ held)%list
    ∧ (length kept ≤ 1)%nat
    ∧ ∀ held2, genCsrConfigFromNvram io config held2 = Returns result (kept ++ held2)%list.
Proof.
  intros Hrun. pose proof (reader_follows_path io config held) as Hpath.
  rewrite Hrun in Hpath.
  inversion Hpath as
    [Hnode | kr properties Hnode Hfetch Hkr | Hnode Hfetch
    | d value Hnode Hfetch Hvalue Hty | d Hnode Hfetch Hvalue
    | d bytes Hnode Hfetch Hvalue Hlen | ]; subst.
  - exists []. repeat split; [simpl; lia|]. intros held2.
    by apply reader_node_unavailable.
  - destruct properties as [d|].
    + exists [cf_object d]. repeat split; [simpl; lia|]. intros held2.
      by rewrite (reader_properties_unavailable _ _ _ _ _ Hnode Hfetch Hkr).
    + exists []. repeat split; [simpl; lia|]. intros held2.
      by rewrite (reader_properties_unavailable _ _ _ _ _ Hnode Hfetch Hkr).
  - exists []. repeat split; [simpl; lia|]. intros held2.
    by apply reader_properties_null.
  - exists [cf_object d]. repeat split; [simpl; lia|]. intros held2.
    by apply (reader_unexpected_type _ _ _ d value).
  - exists [cf_object d]. repeat split; [simpl; lia|]. intros held2.
    by apply reader_property_absent.
  - exists []. repeat split; [simpl; lia|]. intros held2.
    by apply (reader_bytes_fit _ _ _ d).
Qed.

Lemma rows_frame (host : Host) (held held' : ledger) (rows : QueryData) :
  sip_config_rows host held = Returns rows held' →
  ∃ kept : ledger,
    held' = (kept ++ held)%list
    ∧ (length kept ≤ 1)%nat
    ∧ ∀ held2, sip_config_rows host held2 = Returns rows (kept ++ held2)%list.
Proof.
  run_rows.
  destruct (DARWIN_10_9 host);
    [intros [= <- <-]; exists []; repeat split; simpl; lia|].
  destruct (csr_get_active_config host) as [get|];
    [|intros [= <- <-]; exists []; repeat split; simpl; lia].
  destruct (csr_check host) as [check|];
    [|intros [= <- <-]; exists []; repeat split; simpl; lia].
  destruct (genCsrConfigFromNvram (iokit host) 0 held)
    as [[nvram_status nvram_config] held''| |] eqn:Hread; [|done..].
  destruct (reader_frame _ _ _ _ _ Hread) as (kept & -> & Hkept & Hagain).
  intros Hrows. exists kept.
  split; [congruence|]. split; [done|]. intros held2.
  rewrite (Hagain held2). congruence.
Qed.

(** A call that returns no row leaves the ledger as it found it. *)
Lemma no_rows_ledger (host : Host) (held held' : ledger) :
  genSIPConfig host held = Returns [] held' → held' = held.
Proof.
  intros Hrun.
  destruct (decide (length (selectAllFrom host "os_version") = 1%nat)) as [Hcount|Hcount].
  2: { rewrite (gate_record_count _ _ Hcount) in Hrun. by injection Hrun as <-. }
  destruct (selectAllFrom host "os_version") as [|record [|]] eqn:Hone;
    try discriminate Hcount.
  destruct (gate_one_record host held record Hone)
    as [(e & _ & Hthrow) | [[_ Hdeny] | [_ Hlive]]]; [congruence.. |].
  rewrite Hlive in Hrun.
  destruct (rows_cases host held)
    as [[_ Hnone] | (get & check & _ & _ & _ &
          [(st & cfg & held'' & rest & _ & Hrows & _) | [_ Hub]])];
    congruence.
Qed.

(** X14: the rows of a call do not depend on the references held when it
    starts, and the call never releases a reference it did not acquire: a
    call that returns leaves the ledger longer by at most one reference, and
    the same call from any other ledger returns the same rows and adds the
    same reference. So querying the table twice gives the same observations
    twice, and a machine on which one query leaves the property dictionary
    held leaves it held once more on every query. *)
Theorem query_again (host : Host) (held held' : ledger) (rows : QueryData) :
  genSIPConfig host held = Returns rows held' →
  ∃ kept : ledger,
    held' = (kept ++ held)%list
    ∧ (length kept ≤ 1)%nat
    ∧ (rows = [] → kept = [])
    ∧ ∀ held2, genSIPConfig host held2 = Returns rows (kept ++ held2)%list.
Proof.
  intros Hrun.
  destruct (decide (length (selectAllFrom host "os_version") = 1%nat)) as [Hcount|Hcount].
  2: { rewrite (gate_record_count _ _ Hcount) in Hrun. injection Hrun as <- <-.
       exists []. repeat split; [simpl; lia|]. intros held2.
       by apply gate_record_count. }
  destruct (selectAllFrom host "os_version") as [|record [|]] eqn:Hone;
    try discriminate Hcount.
  destruct (gate_one_record host held record Hone)
    as [(e & _ & Hthrow) | [[Hold Hdeny] | [Hs Hlive]]]; [congruence| |].
  - rewrite Hdeny in Hrun. injection Hrun as <- <-.
    exists []. repeat split; [simpl; lia|]. intros held2.
    by apply (gate_too_old _ _ record).
  - rewrite Hlive in Hrun.
    destruct (rows_frame _ _ _ _ Hrun) as (kept & -> & Hkept & Hagain).
    exists kept. split; [done|]. split; [done|]. split.
    + intros ->.
      assert (genSIPConfig host held = Returns [] (kept ++ held)%list) as Hnone
        by congruence.
      apply no_rows_ledger in Hnone.
      destruct kept as [|r kept']; [done|].
      apply (f_equal length) in Hnone. simpl in Hnone. rewrite length_app in Hnone. lia.
    + intros held2. rewrite (gate_supported _ _ record Hone Hs). apply Hagain.
Qed.

Lemma query_again_witness :
  ∃ rows held',
    genSIPConfig el_capitan [] = Returns rows held'
    ∧ ∃ kept : ledger,
        held' = (kept ++ [])%list
        ∧ (length kept ≤ 1)%nat
        ∧ (rows = [] → kept = [])
        ∧ ∀ held2, genSIPConfig el_capitan held2 = Returns rows (kept ++ held2)%list.
Proof.
  destruct (machine_runs "10" "11" 0 (registry 7 KERN_SUCCESS (Some boot_args_only))
              (mkStatus 0 "csr-active-config key not found") 0
              [cf_object boot_args_only] supported_10_11)
    as (first & rest & Hrun & _); [vm_compute; reflexivity|].
  exists (first :: rest), [cf_object boot_args_only]. split; [exact Hrun|].
  exact (query_again el_capitan [] _ _ Hrun).
Defined.

(** ** The status message names the cause *)

(** X15: whenever [genCsrConfigFromNvram] returns, the message of its
    status tells which return it was: "Could not open IOKit DeviceTree"
    exactly when the options node does not open; "Could not get IOKit
    options" exactly when it opens and fetching its properties fails;
    "Could not load IOKit properties" exactly when the fetch succeeds with a
    null dictionary; "Unexpected data type for csr-active-config" exactly
    when the property is there and is not a [CFData]; "csr-active-config
    key not found" exactly when the dictionary lacks the property; and the
    status is a success exactly for the last of these and for "ok". *)
Theorem reader_message_cause (io : IOKit) (config config' : uint32_t)
    (held held' : ledger) (status : Status) :
  genCsrConfigFromNvram io config held = Returns (status, config') held' →
  (getMessage status = "Could not open IOKit DeviceTree" ↔ node_unavailable io)
  ∧ (getMessage status = "Could not get IOKit options" ↔
     ¬ node_unavailable io ∧ properties_unavailable io)
  ∧ (getMessage status = "Could not load IOKit properties" ↔
     ¬ node_unavailable io ∧ fetched_properties io = (KERN_SUCCESS, None))
  ∧ (getMessage status = "Unexpected data type for csr-active-config" ↔
     ¬ node_unavailable io ∧ ¬ properties_unavailable io ∧ unexpected_type io)
  ∧ (getMessage status = "csr-active-config key not found" ↔
     property_absent io)
  ∧ (ok status = true ↔
     getMessage status = "csr-active-config key not found"
     ∨ getMessage status = "ok").
Proof.
  intros Hrun. pose proof (reader_follows_path io config held) as Hpath.
  rewrite Hrun in Hpath.
  unfold node_unavailable, properties_unavailable, unexpected_type, csr_property,
    property_absent.
  inversion Hpath as
    [Hnode | kr properties Hnode Hfetch Hkr | Hnode Hfetch
    | d value Hnode Hfetch Hvalue Hty | d Hnode Hfetch Hvalue
    | d bytes Hnode Hfetch Hvalue Hlen | ]; subst; simpl;
    try rewrite Hfetch; simpl.
  - repeat split; try done; naive_solver.
  - repeat split; try done; naive_solver.
  - repeat split; try done; naive_solver.
  - repeat split; try done; try naive_solver.
  - repeat split; try done; try naive_solver.
  - repeat split; try done; try naive_solver.
Qed.

Lemma reader_message_cause_witness :
  let io := registry 7 5 None in
  let status := mkStatus 1 "Could not get IOKit options" in
  genCsrConfigFromNvram io 0 [] = Returns (status, 0) []
  ∧ (getMessage status = "Could not open IOKit DeviceTree" ↔ node_unavailable io)
  ∧ (getMessage status = "Could not get IOKit options" ↔
     ¬ node_unavailable io ∧ properties_unavailable io)
  ∧ (getMessage status = "Could not load IOKit properties" ↔
     ¬ node_unavailable io ∧ fetched_properties io = (KERN_SUCCESS, None))
  ∧ (getMessage status = "Unexpected data type for csr-active-config" ↔
     ¬ node_unavailable io ∧ ¬ properties_unavailable io ∧ unexpected_type io)
  ∧ (getMessage status = "csr-active-config key not found" ↔
     property_absent io)
  ∧ (ok status = true ↔
     getMessage status = "csr-active-config key not found"
     ∨ getMessage status = "ok").
Proof.
  assert (genCsrConfigFromNvram (registry 7 5 None) 0 []
          = Returns (mkStatus 1 "Could not get IOKit options", 0) []) as Hrun
    by (vm_compute; reflexivity).
  split; [exact Hrun|].
  exact (reader_message_cause _ 0 0 [] [] _ Hrun).
Defined.
